(** * A shallow embedding of the Groq coding-assistant scripts

    The repository holds five Python scripts: [groq.py] (client factory),
    [llm.py] (single question), [chat_history.py] (multi-turn driver and a
    message normalizer), [function_calling.py] (tool-calling driver and a
    second message normalizer) and [evaluation.py] (LLM-as-judge).

    Python dictionaries are finite maps from strings to values, a call that
    may raise returns a [result], and a driver runs in a small state monad
    whose state is the caller's conversation list (mutated in place by
    [append]) together with the log of requests sent to the remote API. *)

From Stdlib Require Import ZArith QArith Ascii.
From stdpp Require Import gmap strings list fin_maps.

#[local] Set Warnings "-register-all".
#[local] Open Scope string_scope.
#[local] Open Scope list_scope.

(** ** Exceptions *)

(** The exception classes that the scripts name, catch or can provoke.
    In the Groq SDK [RateLimitError] derives from [APIError]; in the
    standard library [JSONDecodeError] derives from [ValueError]; every
    class here derives from [Exception]. *)
Inductive exn_class :=
| Exception
| APIError
| RateLimitError
| ValueError
| JSONDecodeError
| NameError
| KeyError
| AttributeError
| TypeError
| IndexError.

#[global] Instance exn_class_eq_dec : EqDecision exn_class.
Proof. solve_decision. Defined.

(** An exception instance: its class and what [str(e)] prints. *)
Record exn := Exn { exn_type : exn_class; exn_str : string }.

Definition issubclass (c d : exn_class) : bool :=
  match d with
  | Exception => true
  | APIError => bool_decide (c = APIError) || bool_decide (c = RateLimitError)
  | ValueError => bool_decide (c = ValueError) || bool_decide (c = JSONDecodeError)
  | _ => bool_decide (c = d)
  end.

Definition isinstance (e : exn) (d : exn_class) : bool := issubclass (exn_type e) d.

(** A Python expression either yields a value or raises. *)
Inductive result (A : Type) :=
| Return (a : A)
| Raise (e : exn).
Arguments Return {A} a.
Arguments Raise {A} e.

#[global] Instance result_ret : MRet result := λ A a, Return a.
#[global] Instance result_bind : MBind result := λ A B f r,
  match r with
  | Return a => f a
  | Raise e => Raise e
  end.

(** [mapM]: a list comprehension or a loop whose body may raise; the
    first exception ends it. *)
Fixpoint for_each {A B} (f : A → result B) (l : list A) : result (list B) :=
  match l with
  | [] => Return []
  | x :: l' => y ← f x; ys ← for_each f l'; Return (y :: ys)
  end.

(** ** Values *)

(** A tool-call object of the SDK ([ChatCompletionMessageToolCall]):
    attributes [id], [type], [function.name], [function.arguments]. *)
Record ToolCall := {
  tc_id : string;
  tc_type : string;
  tc_function_name : string;
  tc_function_arguments : string
}.

(** The Python values a turn can hold. *)
Inductive pyval :=
| VNone
| VBool (b : bool)
| VInt (z : Z)
| VFloat (q : Q)
| VStr (s : string)
| VList (l : list pyval)
| VDict (d : gmap string pyval)
| VObj (tc : ToolCall).

(** A turn of the conversation, and a wire message, is a [dict]. *)
Abbreviation msg := (gmap string pyval).

(** [v is None] *)
Definition is_None (v : pyval) : bool :=
  match v with VNone => true | _ => false end.

(** [v == s] for a string literal [s] *)
Definition eq_str (v : pyval) (s : string) : bool :=
  match v with VStr s' => String.eqb s' s | _ => false end.

(** [d[k]]: raises [KeyError] on a missing key *)
Definition getitem (d : msg) (k : string) : result pyval :=
  match d !! k with
  | Some v => Return v
  | None => Raise (Exn KeyError ("'" +:+ k +:+ "'"))
  end.

(** [d.get(k)]: [None] on a missing key *)
Definition get (d : msg) (k : string) : pyval :=
  match d !! k with
  | Some v => v
  | None => VNone
  end.

(** [k in d] *)
Definition contains (d : msg) (k : string) : bool :=
  match d !! k with
  | Some _ => true
  | None => false
  end.

(** [k in d and d[k] is not None] *)
Definition present (d : msg) (k : string) : bool :=
  contains d k && negb (is_None (get d k)).

(** [for x in v]: a list yields its elements, a string its characters, a
    dict its keys; [None] is not iterable.  An SDK object yields
    (field, value) pairs, none of which has the attributes the loops below
    read, so the first one already raises [AttributeError]. *)
Definition iterate (v : pyval) : result (list pyval) :=
  match v with
  | VList l => Return l
  | VStr s => Return ((λ c, VStr (String c EmptyString)) <$> String.list_ascii_of_string s)
  | VDict d => Return (VStr <$> (map_to_list d).*1)
  | VObj _ => Raise (Exn AttributeError "'tuple' object has no attribute 'id'")
  | VNone | VBool _ | VInt _ | VFloat _ => Raise (Exn TypeError "object is not iterable")
  end.

(** Attribute access [tc.id], [tc.type], [tc.function...]: only an SDK
    tool-call object has them. *)
Definition tool_call_of (v : pyval) : result ToolCall :=
  match v with
  | VObj tc => Return tc
  | _ => Raise (Exn AttributeError "object has no attribute 'id'")
  end.

Definition of_optional (o : option string) : pyval :=
  match o with Some s => VStr s | None => VNone end.

Definition DEFAULT_MODEL : string := "llama3-8b-8192".


(** ** Strings *)

(** [s.find(c)] for a one-character needle: the lowest index of [c] in
    [s], or -1.  Indices count the characters of the Rocq string. *)
Fixpoint find_from (c : Ascii.ascii) (s : string) (i : Z) : Z :=
  match s with
  | EmptyString => (-1)%Z
  | String a s' => if Ascii.eqb a c then i else find_from c s' (i + 1)%Z
  end.

Definition find (s : string) (c : Ascii.ascii) : Z := find_from c s 0%Z.

(** [s.rfind(c)]: the highest index of [c] in [s], or -1. *)
Fixpoint rfind_from (c : Ascii.ascii) (s : string) (i : Z) : Z :=
  match s with
  | EmptyString => (-1)%Z
  | String a s' =>
      let r := rfind_from c s' (i + 1)%Z in
      if (r =? -1)%Z then (if Ascii.eqb a c then i else (-1)%Z) else r
  end.

Definition rfind (s : string) (c : Ascii.ascii) : Z := rfind_from c s 0%Z.

(** [s[a:b]]: negative bounds count from the end, and both are clipped
    to the string. *)
Definition slice (s : string) (a b : Z) : string :=
  let n := Z.of_nat (String.length s) in
  let clip i := if (i <? 0)%Z then Z.max 0 (i + n) else Z.min i n in
  String.substring (Z.to_nat (clip a)) (Z.to_nat (clip b - clip a)) s.

(** The double-quote and newline characters of the f-strings. *)
Definition dq : string := String (Ascii.ascii_of_nat 34) EmptyString.
Definition nl : string := String (Ascii.ascii_of_nat 10) EmptyString.

(** ** The remote API *)

(** The keyword arguments of [client.chat.completions.create]. *)
Record request := {
  req_messages : list msg;
  req_model : string;
  req_tools : option pyval;
  req_tool_choice : option string;
  req_temperature : Q;
  req_max_tokens : Z;
  req_top_p : option Z;
  req_stream : option bool
}.

(** What a completion returns: [choices[i].message.content] and
    [choices[i].message.tool_calls]. *)
Record ChatCompletionMessage := {
  content : option string;
  tool_calls : option (list ToolCall)
}.

Record Choice := { message : ChatCompletionMessage }.

Record ChatCompletion := { choices : list Choice }.

(** [chat_completion.choices[0]] *)
Definition first_choice (c : ChatCompletion) : result Choice :=
  match choices c with
  | ch :: _ => Return ch
  | [] => Raise (Exn IndexError "list index out of range")
  end.

(** A client handle.  The remote end is an oracle: the answer to a
    request may depend on how many requests this invocation sent before. *)
Record Groq := { chat_completions_create : nat → request → result ChatCompletion }.

(** ** Drivers: state and control *)

(** What a driver invocation can change: the caller's list object, the
    requests sent so far, and how many tool functions ran. *)
Record state := {
  conversation_history : list msg;
  calls : list request;
  ticks : nat
}.

Definition M (A : Type) : Type := state → result A * state.

#[global] Instance M_ret : MRet M := λ A a s, (Return a, s).
#[global] Instance M_bind : MBind M := λ A B f m s,
  match m s with
  | (Return a, s') => f a s'
  | (Raise e, s') => (Raise e, s')
  end.

Definition lift {A} (r : result A) : M A := λ s, (r, s).

(** [conversation_history.append(m)] *)
Definition append (m : msg) : M unit := λ s,
  (Return tt, {| conversation_history := conversation_history s ++ [m];
                 calls := calls s; ticks := ticks s |}).

Definition read_history : M (list msg) := λ s, (Return (conversation_history s), s).

(** [client.chat.completions.create(...)] with the keyword arguments
    [req]: one network call. *)
Definition create (client : Groq) (req : request) : M ChatCompletion := λ s,
  (chat_completions_create client (length (calls s)) req,
   {| conversation_history := conversation_history s;
      calls := calls s ++ [req]; ticks := ticks s |}).

(** [try: body / except ...: handler] *)
Definition try_except {A} (body : M A) (handler : exn → M A) : M A := λ s,
  match body s with
  | (Return a, s') => (Return a, s')
  | (Raise e, s') => handler e s'
  end.

(** A [for] loop whose body acts on the state. *)
Fixpoint for_each_do {A} (f : A → M unit) (l : list A) : M unit :=
  match l with
  | [] => mret tt
  | x :: l' => f x;; for_each_do f l'
  end.

(** A driver called on the list [h]: its outcome and the final state.
    The tuple a driver returns holds the reply and the very list object
    it was given, so the second component is [conversation_history] of
    the final state. *)
Definition exec {A} (h : list msg) (m : M A) : result A * state :=
  m {| conversation_history := h; calls := []; ticks := 0 |}.

(** ** Name lookup and [except] clauses *)

Definition builtins : gmap string exn_class :=
  {[ "Exception" := Exception; "ValueError" := ValueError; "NameError" := NameError;
     "KeyError" := KeyError; "AttributeError" := AttributeError;
     "TypeError" := TypeError; "IndexError" := IndexError ]}.

(** Evaluating a name: module globals first, then builtins, else
    [NameError]. *)
Definition load_name (globals : gmap string exn_class) (name : string) : result exn_class :=
  match globals !! name with
  | Some c => Return c
  | None =>
      match builtins !! name with
      | Some c => Return c
      | None => Raise (Exn NameError ("name '" +:+ name +:+ "' is not defined"))
      end
  end.

(** The [except] clauses of a [try] statement, tried in order on the
    exception [e]: each clause's class expression is evaluated only when
    the clauses before it did not match, and an exception raised by that
    evaluation replaces [e].  [Return tt]: a clause matched (its body only
    prints).  When no clause matches [e] propagates. *)
Fixpoint except_clauses (globals : gmap string exn_class) (clauses : list string)
    (e : exn) : result unit :=
  match clauses with
  | [] => Raise e
  | name :: rest =>
      c ← load_name globals name;
      if isinstance e c then Return tt else except_clauses globals rest e
  end.

(** The user and assistant turns every driver appends. *)
Definition user_turn (text : string) : msg :=
  {[ "role" := VStr "user"; "content" := VStr text ]}.

Definition assistant_turn (reply : option string) : msg :=
  {[ "role" := VStr "assistant"; "content" := of_optional reply ]}.

(** ** groq.py *)

Module groq.

(** [from groq import Groq, APIError, RateLimitError] *)
Definition globals : gmap string exn_class :=
  {[ "APIError" := APIError; "RateLimitError" := RateLimitError ]}.

(** [get_groq_client()].  [environ] is [os.environ] and [Groq_init] the
    SDK constructor [Groq(api_key=...)].  [not api_key] holds for a
    missing variable and for an empty one. *)
Definition get_groq_client (environ : gmap string string)
    (Groq_init : string → result Groq) : result (option Groq) :=
  let body : result (option Groq) :=
    match environ !! "GROQ_API_KEY" with
    | None | Some "" => Return None
    | Some api_key => client ← Groq_init api_key; Return (Some client)
    end in
  match body with
  | Return r => Return r
  | Raise e => if isinstance e Exception then Return None else Raise e
  end.

End groq.

(** ** llm.py *)

Module llm.

(** [from groq import Groq, APIError] *)
Definition globals : gmap string exn_class := {[ "APIError" := APIError ]}.

Definition CODING_ASSISTANT_SYSTEM_PROMPT : string :=
  nl +:+
  "You are a specialized Coding Assistant AI. Your primary goal is to assist users with their coding-related questions." +:+ nl +:+
  "You must strictly adhere to the following guidelines:" +:+ nl +:+
  "1.  **Scope of Assistance:** Only answer questions directly related to programming, software development, algorithms, data structures, coding tools (IDEs, compilers, debuggers, version control), APIs, SDKs, and software architecture." +:+ nl +:+
  "2.  **Refusal for Off-Topic Questions:** If a user asks a question outside this scope (e.g., about history, biology, general knowledge, opinions, personal advice), you MUST politely refuse to answer. You can say something like: " +:+ dq +:+ "I am a specialized coding assistant and cannot answer questions outside of programming topics." +:+ dq +:+ " or " +:+ dq +:+ "My apologies, but I'm programmed to assist with coding-related queries only." +:+ dq +:+ " Do NOT attempt to answer off-topic questions." +:+ nl +:+
  "3.  **Accuracy and Clarity:** Provide accurate, clear, and concise explanations. If you provide code snippets, ensure they are correct and well-explained." +:+ nl +:+
  "4.  **No Personal Opinions:** Do not express personal opinions or engage in speculative discussions." +:+ nl +:+
  "5.  **Professional Tone:** Maintain a professional and helpful tone at all times." +:+ nl.

(** [ask_llm_basic(client, user_query, model)] *)
Definition ask_llm_basic (client : option Groq) (user_query : string) (model : string)
    : result (option string) * state :=
  exec [] (
    match client with
    | None => mret None
    | Some client =>
        let messages : list msg :=
          [ {[ "role" := VStr "system"; "content" := VStr CODING_ASSISTANT_SYSTEM_PROMPT ]};
            {[ "role" := VStr "user"; "content" := VStr user_query ]} ] in
        try_except
          (chat_completion ← create client
             {| req_messages := messages; req_model := model;
                req_tools := None; req_tool_choice := None;
                req_temperature := 7 # 10; req_max_tokens := 1024;
                req_top_p := Some 1%Z; req_stream := Some false |};
           choice ← lift (first_choice chat_completion);
           mret (content (message choice)))
          (λ e, lift (except_clauses globals ["APIError"; "RateLimitError"; "Exception"] e);;
                mret None)
    end).

End llm.

(** ** chat_history.py *)

Module chat_history.

(** [from groq import Groq, APIError] *)
Definition globals : gmap string exn_class := {[ "APIError" := APIError ]}.


(** One iteration of the loop body of [filter_messages_for_api]
    (chat_history.py, lines 17-52). *)
Definition api_msg_of (m : msg) : result msg :=
  role ← getitem m "role";
  let api_msg : msg := {[ "role" := role; "content" := get m "content" ]} in
  let api_msg : msg :=
    if present m "tool_calls" then <["tool_calls" := get m "tool_calls"]> api_msg
    else api_msg in
  api_msg ←
    (if present m "tool_call_id" then
       let api_msg : msg := <["tool_call_id" := get m "tool_call_id"]> api_msg in
       content ← getitem m "content";
       Return (<["content" := content]> api_msg)
     else if is_None (get m "content") && negb (contains m "tool_calls") then
       if eq_str role "assistant" then Return (<["content" := VNone]> api_msg)
       else Return api_msg
     else Return api_msg);
  if negb (eq_str role "assistant") && is_None (get api_msg "content")
     && negb (contains api_msg "tool_calls")
  then Return (<["content" := VStr ""]> api_msg)
  else Return api_msg.

Definition filter_messages_for_api (messages : list msg) : result (list msg) :=
  for_each api_msg_of messages.


(** The request of line 73. *)
Definition completion_request (api_ready_messages : list msg) (model : string) : request :=
  {| req_messages := api_ready_messages; req_model := model;
     req_tools := None; req_tool_choice := None;
     req_temperature := 7 # 10; req_max_tokens := 1024;
     req_top_p := Some 1%Z; req_stream := Some false |}.

(** [chat_with_history(client, conversation_history, new_user_query, model)] *)
Definition chat_with_history (client : option Groq) (conversation_history : list msg)
    (new_user_query : string) (model : string) : result (option string) * state :=
  exec conversation_history (
    match client with
    | None => mret None
    | Some client =>
        append (user_turn new_user_query);;
        history ← read_history;
        api_ready_messages ← lift (filter_messages_for_api history);
        try_except
          (chat_completion ← create client (completion_request api_ready_messages model);
           choice ← lift (first_choice chat_completion);
           let assistant_response := content (message choice) in
           append (assistant_turn assistant_response);;
           mret assistant_response)
          (λ e, lift (except_clauses globals ["APIError"; "RateLimitError"; "Exception"] e);;
                mret None)
    end).

End chat_history.

(** ** function_calling.py *)

Module function_calling.

(** [from groq import Groq, APIError] *)
Definition globals : gmap string exn_class := {[ "APIError" := APIError ]}.

(** A registered function: called with no argument, it returns a string
    or raises.  Its answer may change from one execution to the next
    (a clock), so it is indexed by the number of executions before it. *)
Definition tool : Type := nat → result string.

(** [get_current_datetime()]; [clock k] is what
    [datetime.now().strftime(...)] gives at the k-th execution. *)
Definition get_current_datetime (clock : nat → string) : tool := λ k, Return (clock k).

Definition TOOLS_SCHEMA : pyval :=
  VList [ VDict {[
    "type" := VStr "function";
    "function" := VDict {[
      "name" := VStr "get_current_datetime";
      "description" := VStr "Get the current date and time. Use this for any questions related to the current time.";
      "parameters" := VDict {[
        "type" := VStr "object";
        "properties" := VDict ∅;
        "required" := VList [] ]} ]} ]} ].

Definition AVAILABLE_FUNCTIONS (clock : nat → string) : gmap string tool :=
  {[ "get_current_datetime" := get_current_datetime clock ]}.


(** The dict built for one tool call (lines 181-188). *)
Definition tool_call_dict (v : pyval) : result pyval :=
  tc ← tool_call_of v;
  Return (VDict {[ "id" := VStr (tc_id tc);
                   "type" := VStr (tc_type tc);
                   "function" := VDict {[ "name" := VStr (tc_function_name tc);
                                          "arguments" := VStr (tc_function_arguments tc) ]} ]}).

(** One iteration of the loop body of [filter_messages_for_api]
    (function_calling.py, lines 176-199). *)
Definition api_msg_of (m : msg) : result msg :=
  role ← getitem m "role";
  let api_msg : msg := {[ "role" := role ]} in
  let api_msg : msg :=
    if present m "content" then <["content" := get m "content"]> api_msg else api_msg in
  api_msg ←
    (if present m "tool_calls" then
       tcs ← iterate (get m "tool_calls");
       ds ← for_each tool_call_dict tcs;
       Return (<["tool_calls" := VList ds]> api_msg)
     else Return api_msg);
  api_msg ←
    (if eq_str role "tool" then
       id ← getitem m "tool_call_id";
       let api_msg : msg := <["tool_call_id" := id]> api_msg in
       name ← getitem m "name";
       Return (<["name" := name]> api_msg)
     else Return api_msg);
  if negb (eq_str role "assistant") && is_None (get api_msg "content")
     && negb (contains api_msg "tool_calls") && negb (eq_str role "tool")
  then Return (<["content" := VStr ""]> api_msg)
  else if eq_str role "assistant" && contains m "tool_calls" && is_None (get m "content")
  then Return (<["content" := VNone]> api_msg)
  else Return api_msg.

Definition filter_messages_for_api (messages : list msg) : result (list msg) :=
  for_each api_msg_of messages.


(** [function_to_call()] *)
Definition call (f : tool) : M string := λ s,
  (f (ticks s),
   {| conversation_history := conversation_history s; calls := calls s;
      ticks := S (ticks s) |}).

(** The [tool] turn appended for a request. *)
Definition tool_turn (tool_call : ToolCall) (text : string) : msg :=
  {[ "role" := VStr "tool";
     "tool_call_id" := VStr (tc_id tool_call);
     "name" := VStr (tc_function_name tool_call);
     "content" := VStr text ]}.

(** The assistant turn that records the requests (lines 70-76). *)
Definition tool_request_turn (response_message : ChatCompletionMessage)
    (requests : list ToolCall) : msg :=
  {[ "role" := VStr "assistant";
     "content" := of_optional (content response_message);
     "tool_calls" := VList (VObj <$> requests) ]}.

(** The body of the loop over the requests (lines 79-119). *)
Definition execute_tool_call (available : gmap string tool) (tool_call : ToolCall) : M unit :=
  let function_name := tc_function_name tool_call in
  match available !! function_name with
  | Some function_to_call =>
      try_except
        (function_response ← call function_to_call;
         append (tool_turn tool_call function_response))
        (λ e, if isinstance e Exception
              then append (tool_turn tool_call ("Error: " +:+ exn_str e))
              else lift (Raise e))
  | None =>
      append (tool_turn tool_call ("Error: Unknown function '" +:+ function_name +:+ "'"))
  end.

(** The two requests (lines 54 and 126). *)
Definition first_request (api_ready_messages : list msg) (model : string) : request :=
  {| req_messages := api_ready_messages; req_model := model;
     req_tools := Some TOOLS_SCHEMA; req_tool_choice := Some "auto";
     req_temperature := 7 # 10; req_max_tokens := 1024;
     req_top_p := None; req_stream := None |}.

Definition second_request (api_ready_messages_after_tool : list msg) (model : string) : request :=
  {| req_messages := api_ready_messages_after_tool; req_model := model;
     req_tools := None; req_tool_choice := Some "none";
     req_temperature := 7 # 10; req_max_tokens := 1024;
     req_top_p := None; req_stream := None |}.

(** [if response_message.tool_calls:] an absent or empty list is false. *)
Definition requested (response_message : ChatCompletionMessage) : list ToolCall :=
  default [] (tool_calls response_message).

(** [run_conversation_with_tools(client, conversation_history,
    new_user_query, model)], run as the script runs it: the normalizer is
    the one the script defines before the call, and [available] is the
    registry [AVAILABLE_FUNCTIONS]. *)
Definition run_conversation_with_tools (available : gmap string tool)
    (client : option Groq) (conversation_history : list msg)
    (new_user_query : string) (model : string) : result (option string) * state :=
  exec conversation_history (
    match client with
    | None => mret None
    | Some client =>
        append (user_turn new_user_query);;
        history ← read_history;
        api_ready_messages ← lift (filter_messages_for_api history);
        try_except
          (chat_completion ← create client (first_request api_ready_messages model);
           choice ← lift (first_choice chat_completion);
           let response_message := message choice in
           match requested response_message with
           | (_ :: _) as requests =>
               append (tool_request_turn response_message requests);;
               for_each_do (execute_tool_call available) requests;;
               history ← read_history;
               api_ready_messages_after_tool ← lift (filter_messages_for_api history);
               final_completion ← create client
                 (second_request api_ready_messages_after_tool model);
               final_choice ← lift (first_choice final_completion);
               let final_response_content := content (message final_choice) in
               append (assistant_turn final_response_content);;
               mret final_response_content
           | [] =>
               let assistant_response_content := content response_message in
               append (assistant_turn assistant_response_content);;
               mret assistant_response_content
           end)
          (λ e, lift (except_clauses globals ["APIError"; "RateLimitError"; "Exception"] e);;
                mret None)
    end).

End function_calling.

(** ** evaluation.py *)

Module evaluation.

(** [from groq import Groq, APIError] *)
Definition globals : gmap string exn_class := {[ "APIError" := APIError ]}.

Definition EVALUATION_MODEL : string := "llama3-8b-8192".

Definition EVALUATION_SYSTEM_PROMPT : string :=
  nl +:+
  "You are an Evaluation AI. Your task is to evaluate the Coding Assistant's response to a user's query." +:+ nl +:+
  "The Coding Assistant is programmed to ONLY answer coding-related questions and politely refuse others." +:+ nl +:+
  nl +:+
  "Please evaluate based on the following criteria:" +:+ nl +:+
  "1.  **Coding Relevance (is_coding_related)**:" +:+ nl +:+
  "    *   `true`: If the USER'S QUERY is primarily about programming, software development, algorithms, data structures, coding tools, APIs, SDKs, or software architecture." +:+ nl +:+
  "    *   `false`: If the USER'S QUERY is off-topic (e.g., history, general knowledge, personal advice)." +:+ nl +:+
  "2.  **Helpfulness (helpfulness_rating)**:" +:+ nl +:+
  "    *   If `is_coding_related` is `true`, rate the ASSISTANT'S RESPONSE from 1 (not helpful) to 5 (very helpful)." +:+ nl +:+
  "    *   If `is_coding_related` is `false`, this should be `null` or not applicable." +:+ nl +:+
  "3.  **Refusal Appropriateness (refusal_appropriateness)**:" +:+ nl +:+
  "    *   If `is_coding_related` is `false`, did the ASSISTANT'S RESPONSE politely refuse to answer the off-topic query? (`true` or `false`)." +:+ nl +:+
  "    *   If `is_coding_related` is `true`, this should be `null` or not applicable." +:+ nl +:+
  "4.  **Reasoning (reasoning)**: Briefly explain your ratings." +:+ nl +:+
  nl +:+
  "Output your evaluation in JSON format like this:" +:+ nl +:+
  "{" +:+ nl +:+
  "  " +:+ dq +:+ "is_coding_related" +:+ dq +:+ ": boolean," +:+ nl +:+
  "  " +:+ dq +:+ "helpfulness_rating" +:+ dq +:+ ": integer | null," +:+ nl +:+
  "  " +:+ dq +:+ "refusal_appropriateness" +:+ dq +:+ ": boolean | null," +:+ nl +:+
  "  " +:+ dq +:+ "reasoning" +:+ dq +:+ ": " +:+ dq +:+ "Your brief explanation here." +:+ dq +:+ nl +:+
  "}" +:+ nl.

(** The two messages of the judge's prompt (lines 42-48). *)
Definition evaluation_prompt_messages (user_query assistant_response : string) : list msg :=
  [ {[ "role" := VStr "system"; "content" := VStr EVALUATION_SYSTEM_PROMPT ]};
    {[ "role" := VStr "user";
       "content" := VStr ("User Query: " +:+ dq +:+ user_query +:+ dq +:+ nl +:+ nl +:+
                          "Assistant Response: " +:+ dq +:+ assistant_response +:+ dq +:+ nl +:+ nl +:+
                          "Please provide your evaluation in JSON format.") ]} ].

Definition evaluation_request (user_query assistant_response model : string) : request :=
  {| req_messages := evaluation_prompt_messages user_query assistant_response;
     req_model := model;
     req_tools := None; req_tool_choice := None;
     req_temperature := 2 # 10; req_max_tokens := 500;
     req_top_p := None; req_stream := None |}.

(** The two dictionaries returned when no JSON comes out of the text. *)
Definition block_not_found (raw : string) : pyval :=
  VDict {[ "error" := VStr "Failed to parse JSON, block not found";
           "raw_response" := VStr raw ]}.

Definition parse_failed (raw : string) : pyval :=
  VDict {[ "error" := VStr "Failed to parse JSON"; "raw_response" := VStr raw ]}.

(** The inner [try] (lines 65-81).  [json_loads] is [json.loads]: the
    decoded value, or the exception it raises, a [JSONDecodeError] for a
    text that is not JSON and some other one ([ValueError] for a number
    too long to convert, [RecursionError]) otherwise; the clause of line
    78 handles the first kind only.  A reply whose content is [None] has
    no [find] method. *)
Definition parse_evaluation (json_loads : string → result pyval)
    (evaluation_content : option string) : result pyval :=
  match evaluation_content with
  | None => Raise (Exn AttributeError "'NoneType' object has no attribute 'find'")
  | Some text =>
      let json_start := find text "{"%char in
      let json_end := (rfind text "}"%char + 1)%Z in
      let body : result pyval :=
        if negb (json_start =? -1)%Z && negb (json_end =? 0)%Z && (json_end >? json_start)%Z
        then
          let json_string := slice text json_start json_end in
          parsed_evaluation ← json_loads json_string;
          Return parsed_evaluation
        else Return (block_not_found text) in
      match body with
      | Return v => Return v
      | Raise e =>
          if isinstance e JSONDecodeError then Return (parse_failed text) else Raise e
      end
  end.

(** [evaluate_response(client, user_query, assistant_response, model)] *)
Definition evaluate_response (json_loads : string → result pyval) (client : option Groq)
    (user_query assistant_response : string) (model : string)
    : result (option pyval) * state :=
  exec [] (
    match client with
    | None => mret None
    | Some client =>
        try_except
          (chat_completion ← create client
             (evaluation_request user_query assistant_response model);
           choice ← lift (first_choice chat_completion);
           let evaluation_content := content (message choice) in
           parsed ← lift (parse_evaluation json_loads evaluation_content);
           mret (Some parsed))
          (λ e, lift (except_clauses globals ["APIError"; "RateLimitError"; "Exception"] e);;
                mret None)
    end).

End evaluation.

(** ** Vocabulary of the statements *)

(** The tool turn that answers a request, as the tool-calling driver is
    meant to build it: the function's result, a description of the error
    it raised, or the unknown-function message. *)
Definition answers (available : gmap string function_calling.tool)
    (tool_call : ToolCall) (turn : msg) : Prop :=
  ∃ text,
    turn = {[ "role" := VStr "tool";
              "tool_call_id" := VStr (tc_id tool_call);
              "name" := VStr (tc_function_name tool_call);
              "content" := VStr text ]} ∧
    match available !! tc_function_name tool_call with
    | None => text = "Error: Unknown function '" +:+ tc_function_name tool_call +:+ "'"
    | Some f => ∃ k, match f k with
                     | Return r => text = r
                     | Raise e => text = "Error: " +:+ exn_str e
                     end
    end.

(** What a failed remote call is said to leave behind: a null reply and
    the history with nothing but the user turn added. *)
Definition null_reply_with_user_turn (h : list msg) (q : string)
    (r : result (option string) * state) : Prop :=
  r.1 = Return None ∧ conversation_history r.2 = h ++ [user_turn q].

(** The two outcomes said to be the only ones of the conversation driver. *)
Definition advance_contract (h : list msg) (q : string)
    (r : result (option string) * state) : Prop :=
  (∃ reply, r.1 = Return (Some reply) ∧
            conversation_history r.2 = h ++ [user_turn q; assistant_turn (Some reply)])
  ∨ (r.1 = Return None ∧
     (conversation_history r.2 = h ∨ conversation_history r.2 = h ++ [user_turn q])).

(** What the [except] clauses of a driver make of an exception [e] that
    left the [try] body: [None] is returned when a clause matched. *)
Definition after_handlers (globals : gmap string exn_class) (e : exn) : result (option string) :=
  except_clauses globals ["APIError"; "RateLimitError"; "Exception"] e;; Return None.

(** [c] occurs in [s] at [i] and nowhere before, resp. nowhere after. *)
Definition first_index (c : Ascii.ascii) (s : string) (i : nat) : Prop :=
  String.get i s = Some c ∧ ∀ k, k < i → String.get k s ≠ Some c.

Definition last_index (c : Ascii.ascii) (s : string) (j : nat) : Prop :=
  String.get j s = Some c ∧ ∀ k, j < k → String.get k s ≠ Some c.

(** ** Sample inputs *)

Module samples.

Definition call_clock : ToolCall :=
  {| tc_id := "call_1"; tc_type := "function";
     tc_function_name := "get_current_datetime"; tc_function_arguments := "{}" |}.

Definition call_unknown : ToolCall :=
  {| tc_id := "call_2"; tc_type := "function";
     tc_function_name := "delete_universe"; tc_function_arguments := "{}" |}.

Definition system_prompt : msg :=
  {[ "role" := VStr "system"; "content" := VStr "You are a coding assistant." ]}.

Definition tool_reply : msg :=
  {[ "role" := VStr "tool"; "tool_call_id" := VStr "call_1";
     "name" := VStr "get_current_datetime"; "content" := VStr "2024-05-01 12:00:00" ]}.

Definition silent_assistant : msg := {[ "role" := VStr "assistant"; "content" := VNone ]}.

Definition silent_user : msg := {[ "role" := VStr "user"; "content" := VNone ]}.

Definition silent_tool : msg :=
  {[ "role" := VStr "tool"; "tool_call_id" := VStr "call_1";
     "name" := VStr "get_current_datetime"; "content" := VNone ]}.

Definition assistant_request : msg :=
  {[ "role" := VStr "assistant"; "content" := VNone;
     "tool_calls" := VList [VObj call_clock] ]}.

Definition completion (text : option string) (requests : option (list ToolCall))
    : ChatCompletion :=
  {| choices := [ {| message := {| content := text; tool_calls := requests |} |} ] |}.

(** A remote end that always answers [text], and one that always fails. *)
Definition answering (text : option string) : Groq :=
  {| chat_completions_create := λ _ _, Return (completion text None) |}.

Definition failing (e : exn) : Groq :=
  {| chat_completions_create := λ _ _, Raise e |}.

(** A remote end that first asks for [requests] and then does [second]. *)
Definition asking (requests : list ToolCall) (second : result ChatCompletion) : Groq :=
  {| chat_completions_create := λ k _,
       match k with
       | 0 => Return (completion None (Some requests))
       | _ => second
       end |}.

(** [assistant_request] as function_calling's normalizer sends it. *)
Definition assistant_request_wire : msg :=
  {[ "role" := VStr "assistant"; "content" := VNone;
     "tool_calls" := VList [ VDict {[
        "id" := VStr "call_1"; "type" := VStr "function";
        "function" := VDict {[ "name" := VStr "get_current_datetime";
                               "arguments" := VStr "{}" ]} ]} ] ]}.

(** [tool_reply] as chat_history's normalizer sends it. *)
Definition tool_reply_without_name : msg :=
  {[ "role" := VStr "tool"; "tool_call_id" := VStr "call_1";
     "content" := VStr "2024-05-01 12:00:00" ]}.

(** [silent_tool] as function_calling's normalizer sends it. *)
Definition silent_tool_wire : msg :=
  {[ "role" := VStr "tool"; "tool_call_id" := VStr "call_1";
     "name" := VStr "get_current_datetime" ]}.

Definition empty_user : msg := {[ "role" := VStr "user"; "content" := VStr "" ]}.
Definition noon (k : nat) : string := "2024-05-01 12:00:00".

(** [json.loads] on the documents of the examples: the empty object is
    decoded and the other texts are not JSON. *)
Definition toy_json_loads (s : string) : result pyval :=
  if String.eqb s "{}" then Return (VDict ∅)
  else Raise (Exn JSONDecodeError "Expecting property name enclosed in double quotes").




End samples.

(** ** Vocabulary of the further properties *)

(** The dictionary [d] has no key outside [ks]. *)
Definition keys_within (ks : list string) (d : msg) : Prop :=
  ∀ k, is_Some (d !! k) → k ∈ ks.

(** What chat_history's normalizer reads with a subscript: the role of
    the turn, and the content of a turn that has a tool_call_id. *)
Definition readable (m : msg) : Prop :=
  is_Some (m !! "role") ∧ (present m "tool_call_id" = true → is_Some (m !! "content")).

(** What function_calling's normalizer needs of a turn: a role; tool
    calls, when there are some, that iterate to SDK tool-call objects; and
    on a tool turn the keys tool_call_id and name. *)
Definition acceptable (m : msg) : Prop :=
  is_Some (m !! "role")
  ∧ (present m "tool_calls" = true →
     ∃ tcs, iterate (get m "tool_calls") = Return (VObj <$> tcs))
  ∧ (eq_str (get m "role") "tool" = true →
     is_Some (m !! "tool_call_id") ∧ is_Some (m !! "name")).


(** ** The chat session of chat_history.py (lines 117-130) *)

(** [c.lower()] on an ASCII letter; other characters are kept, which is
    all that a comparison with the literal ['quit'] can see. *)
Definition lower_char (c : Ascii.ascii) : Ascii.ascii :=
  let n := Ascii.nat_of_ascii c in
  if ((65 <=? n) && (n <=? 90))%nat then Ascii.ascii_of_nat (n + 32) else c.

Fixpoint lower (s : string) : string :=
  match s with
  | EmptyString => EmptyString
  | String c s' => String (lower_char c) (lower s')
  end.

(** [if response:] a reply that is null or empty counts as false. *)
Definition truthy (response : option string) : bool :=
  match response with
  | Some (String _ _) => true
  | _ => false
  end.

(** [if chat_log and chat_log[-1]["role"] == "user": chat_log.pop()] *)
Definition pop_dangling_user (chat_log : list msg) : result (list msg) :=
  match last chat_log with
  | None => Return chat_log
  | Some m =>
      role ← getitem m "role";
      Return (if eq_str role "user" then removelast chat_log else chat_log)
  end.

(** How the loop ends: the user typed quit, [input] found the end of the
    input, or an exception left the loop. *)
Inductive session_end :=
| Quit (chat_log : list msg)
| EndOfInput (chat_log : list msg)
| Crashed (e : exn).

(** The same client, once [sent] requests have been sent to it. *)
Definition later (client : Groq) (sent : nat) : Groq :=
  {| chat_completions_create := λ k, chat_completions_create client (sent + k) |}.

(** The [while True] loop; [inputs] holds the lines the user types. *)
Fixpoint chat_session (client : Groq) (inputs : list string) (chat_log : list msg)
    (sent : nat) : session_end :=
  match inputs with
  | [] => EndOfInput chat_log
  | user_input :: inputs =>
      if String.eqb (lower user_input) "quit" then Quit chat_log
      else
        let r := chat_history.chat_with_history (Some (later client sent)) chat_log
                   user_input DEFAULT_MODEL in
        let chat_log := conversation_history r.2 in
        let sent := sent + length (calls r.2) in
        match r.1 with
        | Raise e => Crashed e
        | Return response =>
            if truthy response then chat_session client inputs chat_log sent
            else
              match pop_dangling_user chat_log with
              | Return chat_log => chat_session client inputs chat_log sent
              | Raise e => Crashed e
              end
        end
  end.

(** The turns of a list of exchanges: a question, then its answer. *)
Definition exchanges (xs : list (string * option string)) : list msg :=
  xs ≫= λ x, [user_turn x.1; assistant_turn x.2].

(** * Proofs *)

(** ** Tactics for dictionary code *)

Lemma is_None_dec v : {v = VNone} + {is_None v = false}.
Proof. destruct v; (by left) || by right. Qed.

(** A lookup in a dictionary written out key by key is computed. *)
Ltac closed_lookup :=
  match goal with
  | |- context [@lookup string pyval (gmap string pyval) _ ?k ?m] =>
      lazymatch m with
      | context [if _ then _ else _] => fail
      | context [@lookup _ _ _ _ _ _] => fail
      | _ => idtac
      end;
      let v := eval vm_compute in (m !! k) in
      change (m !! k) with v
  end.

(** Runs the tests of a loop body: booleans first, then the lookups they
    have made computable. *)
Ltac split_tests :=
  repeat first
    [ lazymatch goal with
      | |- Raise _ = Return _ → _ => discriminate
      | |- false = true → _ => discriminate
      | |- true = false → _ => discriminate
      end
    | progress (cbv beta iota;
        cbn [mbind result_bind mret result_ret is_None negb andb orb
             eq_str String.eqb Ascii.eqb Bool.eqb
             iterate for_each tool_call_of function_calling.tool_call_dict])
    | match goal with
      | H : is_None ?v = _ |- context [is_None ?v] => rewrite H
      | H : eq_str ?r ?s = _ |- context [eq_str ?r ?s] => rewrite H
      | |- context [is_None ?v] => is_var v; destruct (is_None_dec v) as [-> | ?]
      | |- context [eq_str ?r ?s] => is_var r; destruct (eq_str r s) eqn:?
      | |- context [iterate ?v] => is_var v; destruct (iterate v) eqn:?
      | |- context [for_each ?f ?l] => is_var l; destruct (for_each f l) eqn:?
      end
    | closed_lookup ].

(** Reads the keys a loop body looks at in the turn [m]. *)
Ltac read_turn m :=
  unfold getitem, present, contains, get;
  repeat match goal with
  | |- context [m !! ?k] => destruct (m !! k) as [?v|] eqn:?
  end.

Lemma role_is (m : msg) s : eq_str (get m "role") s = true → m !! "role" = Some (VStr s).
Proof.
  unfold get. destruct (m !! "role") as [[]|]; cbn [eq_str]; try discriminate.
  intros H. apply String.eqb_eq in H. by subst.
Qed.

(** ** Loops that may raise *)

Lemma for_each_app {A B} (f : A → result B) (l1 l2 : list A) :
  for_each f (l1 ++ l2) =
  (xs ← for_each f l1; ys ← for_each f l2; Return (xs ++ ys)).
Proof.
  induction l1 as [|x l1 IH]; cbn [for_each app mbind result_bind].
  - by destruct (for_each f l2).
  - destruct (f x); [|done]. rewrite IH.
    destruct (for_each f l1); [|done]. by destruct (for_each f l2).
Qed.

Lemma for_each_Forall2 {A B} (f : A → result B) (l : list A) (out : list B) :
  for_each f l = Return out ↔ Forall2 (λ x y, f x = Return y) l out.
Proof.
  split.
  - revert out. induction l as [|x l IH]; intros out; cbn [for_each mbind result_bind].
    + intros [= <-]. constructor.
    + destruct (f x) as [y|e] eqn:Hx; [|done].
      destruct (for_each f l) as [ys|e]; [|done].
      intros [= <-]. constructor; [done | by apply IH].
  - induction 1 as [|x y l ys Hx _ IH]; cbn [for_each mbind result_bind]; [done |].
    by rewrite Hx, IH.
Qed.

Lemma for_each_raises {A B} (f : A → result B) (l : list A) x e :
  x ∈ l → f x = Raise e → ∃ e', for_each f l = Raise e'.
Proof.
  intros Hin Hx. induction l as [|y l IH]; [by inversion Hin |].
  cbn [for_each mbind result_bind].
  destruct (f y) as [z|e1] eqn:Hy; [|by eauto].
  apply elem_of_cons in Hin as [-> | Hin]; [congruence |].
  destruct (IH Hin) as [e' ->]. by eauto.
Qed.

(** ** The normalizers, one turn at a time *)

Lemma chat_history_turn_idempotent m out :
  chat_history.api_msg_of m = Return out → chat_history.api_msg_of out = Return out.
Proof.
  unfold chat_history.api_msg_of at 1. read_turn m; split_tests; try discriminate.
  all: intros [= <-].
  all: unfold chat_history.api_msg_of, getitem, present, contains, get; split_tests.
  all: reflexivity.
Qed.

Lemma function_calling_turn_idempotent m out :
  m !! "tool_calls" = None →
  function_calling.api_msg_of m = Return out → function_calling.api_msg_of out = Return out.
Proof.
  intros Ht. unfold function_calling.api_msg_of at 1.
  unfold getitem, present, contains, get. rewrite Ht.
  read_turn m; split_tests; try discriminate.
  all: intros [= <-].
  all: unfold function_calling.api_msg_of, getitem, present, contains, get; split_tests.
  all: reflexivity.
Qed.

(** A turn that holds tool-call objects comes out holding dictionaries,
    which the normalizer cannot read again. *)
Lemma function_calling_turn_not_again m out tc tcs :
  m !! "tool_calls" = Some (VList (VObj tc :: tcs)) →
  function_calling.api_msg_of m = Return out →
  ∃ e, function_calling.api_msg_of out = Raise e.
Proof.
  intros Ht. unfold function_calling.api_msg_of at 1.
  unfold getitem, present, contains, get. rewrite Ht.
  read_turn m; split_tests; try discriminate.
  all: intros [= <-].
  all: unfold function_calling.api_msg_of, getitem, present, contains, get; split_tests.
  all: eauto.
Qed.

(** ** C3: idempotence of the normalizers *)

(** C3, as stated, fails: function_calling's normalizer turns the
    tool-call objects of an assistant turn into dictionaries, and raises
    [AttributeError] when it is given that output again. *)
Lemma function_calling_normalizer_rejects_its_output :
  function_calling.filter_messages_for_api [samples.assistant_request]
    = Return [samples.assistant_request_wire]
  ∧ function_calling.filter_messages_for_api [samples.assistant_request_wire]
    = Raise (Exn AttributeError "object has no attribute 'id'")
  ∧ function_calling.filter_messages_for_api [samples.assistant_request_wire]
    ≠ Return [samples.assistant_request_wire].
Proof.
  assert (function_calling.filter_messages_for_api [samples.assistant_request_wire]
          = Raise (Exn AttributeError "object has no attribute 'id'")) as H
    by (vm_compute; reflexivity).
  split; [vm_compute; reflexivity |]. split; [exact H |].
  rewrite H. discriminate.
Qed.

(** C3, amended: chat_history's normalizer is idempotent on every
    sequence of turns it accepts; function_calling's normalizer is
    idempotent on the sequences whose turns have no [tool_calls] key, and
    raises on its own output as soon as one turn holds tool-call objects. *)
Theorem normalizers_idempotent_up_to_tool_calls :
  (∀ ms out, chat_history.filter_messages_for_api ms = Return out →
             chat_history.filter_messages_for_api out = Return out)
  ∧ (∀ ms out, Forall (λ m : msg, m !! "tool_calls" = None) ms →
               function_calling.filter_messages_for_api ms = Return out →
               function_calling.filter_messages_for_api out = Return out)
  ∧ (∀ ms out (m : msg) tc tcs,
       m ∈ ms → m !! "tool_calls" = Some (VList (VObj tc :: tcs)) →
       function_calling.filter_messages_for_api ms = Return out →
       ∃ e, function_calling.filter_messages_for_api out = Raise e).
Proof.
  unfold chat_history.filter_messages_for_api, function_calling.filter_messages_for_api.
  split; [|split].
  - intros ms out H. apply for_each_Forall2 in H. apply for_each_Forall2.
    induction H as [|m o ms out Hm _ IH]; constructor; [|exact IH].
    by apply chat_history_turn_idempotent with m.
  - intros ms out Hfree H. apply for_each_Forall2 in H. apply for_each_Forall2.
    induction H as [|m o ms out Hm _ IH]; [constructor |].
    apply Forall_cons in Hfree as [Hm0 Hfree]. constructor; [|by apply IH].
    by apply function_calling_turn_idempotent with m.
  - intros ms out m tc tcs Hin Ht H. apply for_each_Forall2 in H.
    apply list_elem_of_lookup in Hin as [k Hk].
    destruct (Forall2_lookup_l _ _ _ _ _ H Hk) as (o & Ho & Hmo).
    destruct (function_calling_turn_not_again _ _ _ _ Ht Hmo) as [e He].
    apply for_each_raises with o e; [|exact He].
    apply list_elem_of_lookup. by exists k.
Qed.

Lemma normalizers_idempotent_up_to_tool_calls_witness :
  chat_history.filter_messages_for_api [samples.tool_reply_without_name; samples.empty_user]
    = Return [samples.tool_reply_without_name; samples.empty_user]
  ∧ function_calling.filter_messages_for_api [samples.tool_reply; samples.empty_user]
    = Return [samples.tool_reply; samples.empty_user]
  ∧ ∃ e, function_calling.filter_messages_for_api [samples.assistant_request_wire] = Raise e.
Proof.
  destruct normalizers_idempotent_up_to_tool_calls as (Hch & Hfc & Hno).
  split; [|split].
  - apply (Hch [samples.tool_reply; samples.silent_user]). vm_compute. reflexivity.
  - apply (Hfc [samples.tool_reply; samples.silent_user]).
    + repeat constructor.
    + vm_compute. reflexivity.
  - apply (Hno [samples.assistant_request] _ samples.assistant_request samples.call_clock []).
    + apply list_elem_of_here.
    + vm_compute. reflexivity.
    + vm_compute. reflexivity.
Defined.

(** ** C6: what a tool turn keeps *)

(** C6, as stated, fails: chat_history's normalizer never copies [name]. *)
Lemma chat_history_normalizer_drops_name :
  samples.tool_reply !! "role" = Some (VStr "tool")
  ∧ samples.tool_reply !! "name" = Some (VStr "get_current_datetime")
  ∧ chat_history.filter_messages_for_api [samples.tool_reply]
    = Return [samples.tool_reply_without_name]
  ∧ samples.tool_reply_without_name !! "name" = None.
Proof. repeat split; vm_compute; reflexivity. Qed.

(** C6, amended: on a turn with role [tool], function_calling's
    normalizer copies [tool_call_id] and [name] (which the turn must have)
    and a content that is not null; chat_history's normalizer copies a
    [tool_call_id] that is not null and the content, and leaves [name]
    out. *)
Theorem tool_turn_fields (m out : msg) :
  eq_str (get m "role") "tool" = true →
  (function_calling.api_msg_of m = Return out →
     is_Some (m !! "tool_call_id") ∧ out !! "tool_call_id" = m !! "tool_call_id"
     ∧ is_Some (m !! "name") ∧ out !! "name" = m !! "name"
     ∧ (is_None (get m "content") = false → out !! "content" = m !! "content"))
  ∧ (chat_history.api_msg_of m = Return out →
     out !! "name" = None
     ∧ (present m "tool_call_id" = true → out !! "tool_call_id" = m !! "tool_call_id")
     ∧ (is_None (get m "content") = false → out !! "content" = m !! "content")).
Proof.
  intros Hrole%role_is. split.
  - unfold function_calling.api_msg_of, getitem, present, contains, get. rewrite Hrole.
    read_turn m; split_tests.
    all: intros [= <-]; split_tests.
    all: repeat split; try discriminate; try reflexivity; eauto.
  - unfold chat_history.api_msg_of, getitem, present, contains, get. rewrite Hrole.
    read_turn m; split_tests.
    all: intros [= <-]; split_tests.
    all: repeat split; try discriminate; try reflexivity; eauto.
Qed.

Lemma tool_turn_fields_witness :
  samples.tool_reply_without_name !! "name" = None
  ∧ (present samples.tool_reply "tool_call_id" = true →
     samples.tool_reply_without_name !! "tool_call_id"
     = samples.tool_reply !! "tool_call_id")
  ∧ (is_None (get samples.tool_reply "content") = false →
     samples.tool_reply_without_name !! "content" = samples.tool_reply !! "content").
Proof.
  apply (tool_turn_fields samples.tool_reply samples.tool_reply_without_name).
  - vm_compute. reflexivity.
  - vm_compute. reflexivity.
Defined.

(** ** C8: the empty string for a missing content *)

(** C8, as stated, fails: an assistant turn without tool calls keeps its
    null content in chat_history's normalizer, and a tool turn without
    content is sent with no content at all by function_calling's. *)
Lemma null_content_is_not_always_replaced :
  chat_history.filter_messages_for_api [samples.silent_assistant]
    = Return [samples.silent_assistant]
  ∧ samples.silent_assistant !! "content" = Some VNone
  ∧ function_calling.filter_messages_for_api [samples.silent_tool]
    = Return [samples.silent_tool_wire]
  ∧ samples.silent_tool_wire !! "content" = None.
Proof. repeat split; vm_compute; reflexivity. Qed.

(** An assistant turn comes out with the empty string as content only
    when it came in with it. *)
Lemma assistant_content_kept (m out : msg) :
  m !! "role" = Some (VStr "assistant") →
  (chat_history.api_msg_of m = Return out →
     m !! "content" ≠ Some (VStr "") → out !! "content" ≠ Some (VStr ""))
  ∧ (function_calling.api_msg_of m = Return out →
     m !! "content" ≠ Some (VStr "") → out !! "content" ≠ Some (VStr "")).
Proof.
  intros Hrole. split.
  - unfold chat_history.api_msg_of, getitem, present, contains, get. rewrite Hrole.
    read_turn m; split_tests.
    all: intros [= <-]; split_tests.
    all: first [intros _; discriminate | intros Hne; exact Hne].
  - unfold function_calling.api_msg_of, getitem, present, contains, get. rewrite Hrole.
    read_turn m; split_tests.
    all: intros [= <-]; split_tests.
    all: first [intros _; discriminate | intros Hne; exact Hne].
Qed.

(** C8, amended: for a turn whose content is absent or null, that holds
    no tool calls and whose role is not [assistant], chat_history's
    normalizer sends the empty string; function_calling's normalizer does
    so too unless the role is [tool], in which case it sends no content.
    An assistant turn is never given the empty string: neither normalizer
    sends it for an assistant turn that did not hold it. *)
Theorem empty_content_substitution (m out : msg) :
  (is_None (get m "content") = true →
   present m "tool_calls" = false →
   eq_str (get m "role") "assistant" = false →
   (chat_history.api_msg_of m = Return out → out !! "content" = Some (VStr ""))
   ∧ (function_calling.api_msg_of m = Return out →
      out !! "content" = if eq_str (get m "role") "tool" then None else Some (VStr "")))
  ∧ (eq_str (get m "role") "assistant" = true →
     m !! "content" ≠ Some (VStr "") →
     (chat_history.api_msg_of m = Return out → out !! "content" ≠ Some (VStr ""))
     ∧ (function_calling.api_msg_of m = Return out → out !! "content" ≠ Some (VStr ""))).
Proof.
  split.
  - intros H H0 H1. split.
    + revert H H0 H1. unfold chat_history.api_msg_of.
      read_turn m; split_tests.
      all: intros ? ? ? [= <-]; try discriminate; split_tests; reflexivity.
    + revert H H0 H1. unfold function_calling.api_msg_of.
      read_turn m; split_tests.
      all: intros ? ? ? [= <-]; try discriminate; split_tests; reflexivity.
  - intros Hrole%role_is Hne.
    destruct (assistant_content_kept m out Hrole) as [Hchat Hcalling].
    split; intros Hout; [by apply Hchat | by apply Hcalling].
Qed.

Lemma empty_content_substitution_witness :
  (samples.empty_user !! "content" = Some (VStr "")
   ∧ samples.silent_tool_wire !! "content" = None)
  ∧ samples.silent_assistant !! "content" ≠ Some (VStr "")
  ∧ samples.assistant_request_wire !! "content" ≠ Some (VStr "").
Proof.
  split; [split |].
  - destruct (proj1 (empty_content_substitution samples.silent_user samples.empty_user))
      as [Hchat _].
    + vm_compute. reflexivity.
    + vm_compute. reflexivity.
    + vm_compute. reflexivity.
    + apply Hchat. vm_compute. reflexivity.
  - destruct (proj1 (empty_content_substitution samples.silent_tool
                       samples.silent_tool_wire)) as [_ Hcalling].
    + vm_compute. reflexivity.
    + vm_compute. reflexivity.
    + vm_compute. reflexivity.
    + apply Hcalling. vm_compute. reflexivity.
  - split.
    + destruct (proj2 (empty_content_substitution samples.silent_assistant
                         samples.silent_assistant)) as [Hchat _].
      * vm_compute. reflexivity.
      * vm_compute. discriminate.
      * apply Hchat. vm_compute. reflexivity.
    + destruct (proj2 (empty_content_substitution samples.assistant_request
                         samples.assistant_request_wire)) as [_ Hcalling].
      * vm_compute. reflexivity.
      * vm_compute. discriminate.
      * apply Hcalling. vm_compute. reflexivity.
Defined.

(** ** Exceptions and the [except] clauses of the drivers *)

Lemma isinstance_Exception e : isinstance e Exception = true.
Proof. reflexivity. Qed.

Lemma RateLimitError_is_APIError s : isinstance (Exn RateLimitError s) APIError = true.
Proof. reflexivity. Qed.

(** With only [APIError] imported, an [APIError] is handled by the first
    clause, and anything else dies on the name of the second clause. *)
Lemma after_handlers_APIError e :
  isinstance e APIError = true →
  after_handlers {[ "APIError" := APIError ]} e = Return None.
Proof.
  intros He. unfold after_handlers. cbn [except_clauses].
  change (load_name {[ "APIError" := APIError ]} "APIError") with (Return APIError).
  cbn [mbind result_bind]. by rewrite He.
Qed.

Lemma after_handlers_other e :
  isinstance e APIError = false →
  after_handlers {[ "APIError" := APIError ]} e
  = Raise (Exn NameError "name 'RateLimitError' is not defined").
Proof.
  intros He. unfold after_handlers. cbn [except_clauses].
  change (load_name {[ "APIError" := APIError ]} "APIError") with (Return APIError).
  cbn [mbind result_bind]. rewrite He.
  change (load_name {[ "APIError" := APIError ]} "RateLimitError")
    with (@Raise exn_class (Exn NameError "name 'RateLimitError' is not defined")).
  reflexivity.
Qed.

(** Had the module imported [RateLimitError], as groq.py does, every
    exception would have been handled. *)
Lemma after_handlers_with_import e : after_handlers groq.globals e = Return None.
Proof.
  unfold after_handlers. cbn [except_clauses].
  change (load_name groq.globals "APIError") with (Return APIError).
  change (load_name groq.globals "RateLimitError") with (Return RateLimitError).
  change (load_name groq.globals "Exception") with (Return Exception).
  cbn [mbind result_bind]. rewrite isinstance_Exception.
  by destruct (isinstance e APIError), (isinstance e RateLimitError).
Qed.

(** ** C9: no credential, no client, no call *)

(** C9: when GROQ_API_KEY is not set, [get_groq_client] returns [None],
    and every driver given [None] returns a null reply at once: no request
    is sent and the conversation is the one it was given. *)
Theorem missing_credential_short_circuits
    (environ : gmap string string) (Groq_init : string → result Groq) :
  environ !! "GROQ_API_KEY" = None →
  groq.get_groq_client environ Groq_init = Return None
  ∧ ∀ available json_loads h q a model,
      let untouched h := {| conversation_history := h; calls := []; ticks := 0 |} in
      chat_history.chat_with_history None h q model = (Return None, untouched h)
      ∧ function_calling.run_conversation_with_tools available None h q model
        = (Return None, untouched h)
      ∧ evaluation.evaluate_response json_loads None q a model = (Return None, untouched [])
      ∧ llm.ask_llm_basic None q model = (Return None, untouched []).
Proof.
  intros Hkey. split.
  - unfold groq.get_groq_client. by rewrite Hkey.
  - intros. repeat split; reflexivity.
Qed.

Lemma missing_credential_short_circuits_witness :
  groq.get_groq_client ∅ (λ _, Return (samples.answering (Some "hello"))) = Return None
  ∧ ∀ available json_loads h q a model,
      let untouched h := {| conversation_history := h; calls := []; ticks := 0 |} in
      chat_history.chat_with_history None h q model = (Return None, untouched h)
      ∧ function_calling.run_conversation_with_tools available None h q model
        = (Return None, untouched h)
      ∧ evaluation.evaluate_response json_loads None q a model = (Return None, untouched [])
      ∧ llm.ask_llm_basic None q model = (Return None, untouched []).
Proof.
  apply (missing_credential_short_circuits ∅ (λ _, Return (samples.answering (Some "hello")))).
  apply lookup_empty.
Defined.

(** ** The conversation driver, case by case *)

Ltac run_driver :=
  cbv [exec mbind M_bind mret M_ret lift append read_history create try_except];
  cbn [conversation_history calls ticks length app].

Lemma chat_with_history_run client h q model :
  chat_history.chat_with_history (Some client) h q model =
  match chat_history.filter_messages_for_api (h ++ [user_turn q]) with
  | Raise e =>
      (Raise e, {| conversation_history := h ++ [user_turn q]; calls := []; ticks := 0 |})
  | Return msgs =>
      let req := chat_history.completion_request msgs model in
      match chat_completions_create client 0 req ≫= first_choice with
      | Return ch =>
          (Return (content (message ch)),
           {| conversation_history :=
                (h ++ [user_turn q]) ++ [assistant_turn (content (message ch))];
              calls := [req]; ticks := 0 |})
      | Raise e =>
          (after_handlers chat_history.globals e,
           {| conversation_history := h ++ [user_turn q]; calls := [req]; ticks := 0 |})
      end
  end.
Proof.
  unfold chat_history.chat_with_history, after_handlers. run_driver.
  destruct (chat_history.filter_messages_for_api (h ++ [user_turn q])) as [msgs|e];
    [|reflexivity].
  cbn [mbind result_bind].
  destruct (chat_completions_create client 0 _) as [c|e]; cbn [mbind result_bind].
  - destruct (first_choice c) as [ch|e]; [reflexivity |].
    by destruct (except_clauses _ _ e).
  - by destruct (except_clauses _ _ e).
Qed.

(** ** C2: what the conversation driver returns *)

(** C2, as stated, fails: when the completion's content is null the
    driver returns null although it appended both turns. *)
Lemma null_reply_after_two_appends :
  let r := chat_history.chat_with_history (Some (samples.answering None))
             [samples.system_prompt] "hi" DEFAULT_MODEL in
  r.1 = Return None
  ∧ conversation_history r.2
    = [samples.system_prompt; user_turn "hi"; assistant_turn None]
  ∧ ¬ advance_contract [samples.system_prompt] "hi" r.
Proof.
  assert (chat_history.chat_with_history (Some (samples.answering None))
            [samples.system_prompt] "hi" DEFAULT_MODEL
          = (Return None,
             {| conversation_history :=
                  [samples.system_prompt; user_turn "hi"; assistant_turn None];
                calls := [chat_history.completion_request
                            [samples.system_prompt; user_turn "hi"] DEFAULT_MODEL];
                ticks := 0 |})) as Hrun by (vm_compute; reflexivity).
  cbv zeta. rewrite Hrun. cbn [fst snd conversation_history].
  split; [reflexivity |]. split; [reflexivity |].
  intros [(reply & Hreply & _) | (_ & [Hsame | Hone])].
  - discriminate Hreply.
  - apply (f_equal length) in Hsame. discriminate Hsame.
  - apply (f_equal length) in Hone. discriminate Hone.
Qed.

(** C2, amended: on a history that the normalizer accepts, the driver
    without a client returns null and leaves the conversation as it was;
    with a completion it appends the user turn and the assistant turn and
    returns the completion's content, null when that content is null; with
    an [APIError] from the remote call it returns null and leaves the user
    turn in the conversation. *)
Theorem chat_with_history_outcomes client h q model msgs :
  chat_history.filter_messages_for_api (h ++ [user_turn q]) = Return msgs →
  let req := chat_history.completion_request msgs model in
  chat_history.chat_with_history None h q model
  = (Return None, {| conversation_history := h; calls := []; ticks := 0 |})
  ∧ (∀ ch rest,
       chat_completions_create client 0 req = Return {| choices := ch :: rest |} →
       chat_history.chat_with_history (Some client) h q model
       = (Return (content (message ch)),
          {| conversation_history :=
               h ++ [user_turn q; assistant_turn (content (message ch))];
             calls := [req]; ticks := 0 |}))
  ∧ (∀ e,
       chat_completions_create client 0 req = Raise e →
       isinstance e APIError = true →
       chat_history.chat_with_history (Some client) h q model
       = (Return None,
          {| conversation_history := h ++ [user_turn q]; calls := [req]; ticks := 0 |})).
Proof.
  intros Hmsgs req. split; [reflexivity |]. split.
  - intros ch rest Hcall. rewrite chat_with_history_run, Hmsgs. cbv zeta.
    fold req. rewrite Hcall. cbn [mbind result_bind first_choice choices].
    by rewrite <- app_assoc.
  - intros e Hcall He. rewrite chat_with_history_run, Hmsgs. cbv zeta.
    fold req. rewrite Hcall. cbn [mbind result_bind].
    unfold chat_history.globals. by rewrite after_handlers_APIError.
Qed.

Lemma chat_with_history_outcomes_witness :
  let h := [samples.system_prompt] in
  let req := chat_history.completion_request [samples.system_prompt; user_turn "hi"]
               DEFAULT_MODEL in
  let client := samples.answering (Some "hello") in
  chat_history.chat_with_history None h "hi" DEFAULT_MODEL
  = (Return None, {| conversation_history := h; calls := []; ticks := 0 |})
  ∧ (∀ ch rest,
       chat_completions_create client 0 req = Return {| choices := ch :: rest |} →
       chat_history.chat_with_history (Some client) h "hi" DEFAULT_MODEL
       = (Return (content (message ch)),
          {| conversation_history :=
               h ++ [user_turn "hi"; assistant_turn (content (message ch))];
             calls := [req]; ticks := 0 |}))
  ∧ (∀ e,
       chat_completions_create client 0 req = Raise e →
       isinstance e APIError = true →
       chat_history.chat_with_history (Some client) h "hi" DEFAULT_MODEL
       = (Return None,
          {| conversation_history := h ++ [user_turn "hi"]; calls := [req];
             ticks := 0 |})).
Proof.
  apply (chat_with_history_outcomes (samples.answering (Some "hello"))
           [samples.system_prompt] "hi" DEFAULT_MODEL
           [samples.system_prompt; user_turn "hi"]).
  vm_compute. reflexivity.
Defined.

(** ** The tool-calling driver, step by step *)

Lemma bind_run {A B} (m : M A) (f : A → M B) s :
  (m ≫= f) s = match m s with
               | (Return a, s') => f a s'
               | (Raise e, s') => (Raise e, s')
               end.
Proof. reflexivity. Qed.

(** One request: whatever the registry holds and whatever the function
    does, one answering turn is appended and nothing is raised. *)
Lemma execute_tool_call_step available tc s :
  ∃ text k,
    answers available tc (function_calling.tool_turn tc text)
    ∧ function_calling.execute_tool_call available tc s
      = (Return tt,
         {| conversation_history :=
              conversation_history s ++ [function_calling.tool_turn tc text];
            calls := calls s; ticks := k |}).
Proof.
  unfold function_calling.execute_tool_call, answers.
  destruct (available !! tc_function_name tc) as [f|] eqn:Hf.
  - destruct (f (ticks s)) as [r|e] eqn:Hr.
    + exists r, (S (ticks s)). split.
      * exists r. split; [done |]. exists (ticks s). by rewrite Hr.
      * run_driver. unfold function_calling.call. by rewrite Hr.
    + exists ("Error: " +:+ exn_str e), (S (ticks s)). split.
      * eexists. split; [done |]. exists (ticks s). by rewrite Hr.
      * run_driver. unfold function_calling.call. rewrite Hr.
        by rewrite isinstance_Exception.
  - eexists _, (ticks s). split.
    + eexists. split; done.
    + reflexivity.
Qed.

(** The loop over the requests never raises: it appends one answering
    turn per request, in order, and sends nothing. *)
Lemma tool_loop available requests : ∀ s,
  ∃ turns k,
    for_each_do (function_calling.execute_tool_call available) requests s
    = (Return tt, {| conversation_history := conversation_history s ++ turns;
                     calls := calls s; ticks := k |})
    ∧ Forall2 (answers available) requests turns.
Proof.
  induction requests as [|tc requests IH]; intros s.
  - exists [], (ticks s). rewrite app_nil_r. split; [by destruct s | constructor].
  - cbn [for_each_do]. rewrite bind_run.
    destruct (execute_tool_call_step available tc s) as (text & k & Hans & ->).
    destruct (IH {| conversation_history :=
                      conversation_history s ++ [function_calling.tool_turn tc text];
                    calls := calls s; ticks := k |}) as (turns & k' & Hrest & Hall).
    rewrite Hrest. cbn [conversation_history calls].
    exists (function_calling.tool_turn tc text :: turns), k'. split.
    + by rewrite <- app_assoc.
    + by constructor.
Qed.

(** The turns the driver appends are accepted by its normalizer. *)
Lemma tool_turn_accepted tc text :
  function_calling.api_msg_of (function_calling.tool_turn tc text)
  = Return (function_calling.tool_turn tc text).
Proof. vm_compute. reflexivity. Qed.

Lemma tool_call_dicts requests :
  ∃ ds, for_each function_calling.tool_call_dict (VObj <$> requests) = Return ds.
Proof.
  induction requests as [|tc requests [ds IH]]; [by exists [] |].
  rewrite fmap_cons. cbn [for_each].
  assert (∃ d, function_calling.tool_call_dict (VObj tc) = Return d) as [d ->]
    by (unfold function_calling.tool_call_dict; cbn [tool_call_of mbind result_bind];
        eauto).
  cbn [mbind result_bind]. rewrite IH. cbn [mbind result_bind]. eauto.
Qed.

Lemma tool_request_turn_accepted response_message requests :
  ∃ wire, function_calling.api_msg_of
            (function_calling.tool_request_turn response_message requests)
          = Return wire.
Proof.
  destruct (tool_call_dicts requests) as [ds Hds].
  unfold function_calling.api_msg_of, function_calling.tool_request_turn,
    getitem, present, contains, get.
  remember (VObj <$> requests) as objects.
  destruct (content response_message); cbn [of_optional]; split_tests.
  all: try congruence; eauto.
Qed.

Lemma answering_turns_accepted available requests turns :
  Forall2 (answers available) requests turns →
  for_each function_calling.api_msg_of turns = Return turns.
Proof.
  intros H. apply for_each_Forall2.
  induction H as [|tc turn requests turns (text & -> & _) _ IH]; constructor; [|done].
  apply tool_turn_accepted.
Qed.

(** The four ways an invocation with a client can go. *)
Lemma run_tools_rejected available client h q model e :
  function_calling.filter_messages_for_api (h ++ [user_turn q]) = Raise e →
  function_calling.run_conversation_with_tools available (Some client) h q model
  = (Raise e, {| conversation_history := h ++ [user_turn q]; calls := []; ticks := 0 |}).
Proof.
  intros Hmsgs. unfold function_calling.run_conversation_with_tools. run_driver.
  by rewrite Hmsgs.
Qed.

Lemma run_tools_first_fails available client h q model msgs e :
  function_calling.filter_messages_for_api (h ++ [user_turn q]) = Return msgs →
  chat_completions_create client 0 (function_calling.first_request msgs model)
    ≫= first_choice = Raise e →
  function_calling.run_conversation_with_tools available (Some client) h q model
  = (after_handlers function_calling.globals e,
     {| conversation_history := h ++ [user_turn q];
        calls := [function_calling.first_request msgs model]; ticks := 0 |}).
Proof.
  intros Hmsgs Hcall. unfold function_calling.run_conversation_with_tools, after_handlers.
  run_driver. rewrite Hmsgs.
  destruct (chat_completions_create client 0 _) as [c|e']; cbn [mbind result_bind] in Hcall.
  - rewrite Hcall. by destruct (except_clauses _ _ e).
  - injection Hcall as ->. by destruct (except_clauses _ _ e).
Qed.

Lemma run_tools_direct available client h q model msgs ch :
  function_calling.filter_messages_for_api (h ++ [user_turn q]) = Return msgs →
  chat_completions_create client 0 (function_calling.first_request msgs model)
    ≫= first_choice = Return ch →
  function_calling.requested (message ch) = [] →
  function_calling.run_conversation_with_tools available (Some client) h q model
  = (Return (content (message ch)),
     {| conversation_history :=
          h ++ [user_turn q; assistant_turn (content (message ch))];
        calls := [function_calling.first_request msgs model]; ticks := 0 |}).
Proof.
  intros Hmsgs Hcall Hnone. unfold function_calling.run_conversation_with_tools.
  run_driver. rewrite Hmsgs.
  destruct (chat_completions_create client 0 _) as [c|e']; cbn [mbind result_bind] in Hcall;
    [|discriminate].
  rewrite Hcall, Hnone. cbv beta iota. cbn [conversation_history calls ticks].
  by rewrite <- app_assoc.
Qed.

Lemma run_tools_requests available client h q model msgs ch :
  function_calling.filter_messages_for_api (h ++ [user_turn q]) = Return msgs →
  chat_completions_create client 0 (function_calling.first_request msgs model)
    ≫= first_choice = Return ch →
  function_calling.requested (message ch) ≠ [] →
  ∃ turns k msgs2,
    let requests := function_calling.requested (message ch) in
    let grown := h ++ [user_turn q; function_calling.tool_request_turn (message ch) requests]
                   ++ turns in
    let req1 := function_calling.first_request msgs model in
    let req2 := function_calling.second_request msgs2 model in
    Forall2 (answers available) requests turns
    ∧ function_calling.filter_messages_for_api grown = Return msgs2
    ∧ function_calling.run_conversation_with_tools available (Some client) h q model
      = match chat_completions_create client 1 req2 ≫= first_choice with
        | Return final =>
            (Return (content (message final)),
             {| conversation_history := grown ++ [assistant_turn (content (message final))];
                calls := [req1; req2]; ticks := k |})
        | Raise e =>
            (after_handlers function_calling.globals e,
             {| conversation_history := grown; calls := [req1; req2]; ticks := k |})
        end.
Proof.
  intros Hmsgs Hcall Hsome.
  destruct (function_calling.requested (message ch)) as [|tc requests] eqn:Hreq; [done |].
  set (turn := function_calling.tool_request_turn (message ch) (tc :: requests)).
  destruct (tool_loop available (tc :: requests)
              {| conversation_history := (h ++ [user_turn q]) ++ [turn];
                 calls := [function_calling.first_request msgs model]; ticks := 0 |})
    as (turns & k & Hloop & Hall).
  cbn [conversation_history calls] in Hloop.
  assert (∃ msgs2, function_calling.filter_messages_for_api
                     (((h ++ [user_turn q]) ++ [turn]) ++ turns) = Return msgs2)
    as [msgs2 Hmsgs2].
  { unfold function_calling.filter_messages_for_api in *.
    rewrite for_each_app, for_each_app, Hmsgs. cbn [for_each mbind result_bind].
    unfold turn.
    destruct (tool_request_turn_accepted (message ch) (tc :: requests)) as [wire ->].
    rewrite (answering_turns_accepted _ _ _ Hall). cbn [mbind result_bind]. eauto. }
  exists turns, k, msgs2. cbv zeta. split; [exact Hall |].
  assert (h ++ [user_turn q; turn] ++ turns = ((h ++ [user_turn q]) ++ [turn]) ++ turns)
    as Hshape by (by rewrite <- !app_assoc).
  fold turn. rewrite Hshape. split; [exact Hmsgs2 |].
  unfold function_calling.run_conversation_with_tools, after_handlers.
  run_driver. rewrite Hmsgs.
  destruct (chat_completions_create client 0 _) as [c|e']; cbn [mbind result_bind] in Hcall;
    [|discriminate].
  rewrite Hcall, Hreq. cbv beta iota. cbn [conversation_history calls ticks].
  fold turn. rewrite Hloop. cbv beta iota. cbn [conversation_history calls ticks length app]. rewrite Hmsgs2.
  destruct (chat_completions_create client 1 _) as [c2|e2]; cbn [mbind result_bind].
  - destruct (first_choice c2) as [final|e2]; [reflexivity |].
    by destruct (except_clauses _ _ e2).
  - by destruct (except_clauses _ _ e2).
Qed.



(** ** C5: every request gets its tool turn *)



(** ** C10: how much the conversation grows *)



(** ** C4: how many requests one invocation sends *)



(** ** C1: what becomes of a failed remote call *)

Lemma evaluate_response_api_error json_loads client q a model e :
  chat_completions_create client 0 (evaluation.evaluation_request q a model) = Raise e →
  isinstance e APIError = true →
  evaluation.evaluate_response json_loads (Some client) q a model
  = (Return None,
     {| conversation_history := [];
        calls := [evaluation.evaluation_request q a model]; ticks := 0 |}).
Proof.
  intros Hcall He. unfold evaluation.evaluate_response. run_driver.
  rewrite Hcall. cbn [mbind result_bind except_clauses].
  change (load_name evaluation.globals "APIError") with (Return APIError).
  cbn [mbind result_bind]. by rewrite He.
Qed.

(** C1, as stated, fails twice.  An exception of the remote call that is
    not an [APIError] reaches the second [except] clause, whose class name
    is not bound in the module: the caller gets a [NameError].  And when
    the second request of the tool-calling driver fails, the reply is null
    but the conversation keeps the assistant turn and the tool turn that
    were appended before it. *)
Lemma unexpected_exception_reaches_the_caller :
  let r := chat_history.chat_with_history (Some (samples.failing (Exn ValueError "boom")))
             [samples.system_prompt] "hi" DEFAULT_MODEL in
  let t := function_calling.run_conversation_with_tools
             (function_calling.AVAILABLE_FUNCTIONS samples.noon)
             (Some (samples.asking [samples.call_clock] (Raise (Exn RateLimitError "429"))))
             [samples.system_prompt] "time?" DEFAULT_MODEL in
  r.1 = Raise (Exn NameError "name 'RateLimitError' is not defined")
  ∧ ¬ null_reply_with_user_turn [samples.system_prompt] "hi" r
  ∧ t.1 = Return None
  ∧ conversation_history t.2
    = [samples.system_prompt; user_turn "time?";
       function_calling.tool_request_turn {| content := None; tool_calls := None |}
         [samples.call_clock];
       function_calling.tool_turn samples.call_clock "2024-05-01 12:00:00"]
  ∧ ¬ null_reply_with_user_turn [samples.system_prompt] "time?" t.
Proof.
  cbv zeta.
  assert ((chat_history.chat_with_history (Some (samples.failing (Exn ValueError "boom")))
             [samples.system_prompt] "hi" DEFAULT_MODEL).1
          = Raise (Exn NameError "name 'RateLimitError' is not defined")) as Hr
    by (vm_compute; reflexivity).
  assert (conversation_history
            (function_calling.run_conversation_with_tools
               (function_calling.AVAILABLE_FUNCTIONS samples.noon)
               (Some (samples.asking [samples.call_clock]
                        (Raise (Exn RateLimitError "429"))))
               [samples.system_prompt] "time?" DEFAULT_MODEL).2
          = [samples.system_prompt; user_turn "time?";
             function_calling.tool_request_turn {| content := None; tool_calls := None |}
               [samples.call_clock];
             function_calling.tool_turn samples.call_clock "2024-05-01 12:00:00"]) as Ht
    by (vm_compute; reflexivity).
  split; [exact Hr |]. split.
  { intros [Hnull _]. rewrite Hr in Hnull. discriminate Hnull. }
  split; [vm_compute; reflexivity |]. split; [exact Ht |].
  intros [_ Hone]. rewrite Ht in Hone. apply (f_equal length) in Hone. discriminate Hone.
Qed.

(** C1, amended: an [APIError] of the remote call, a rate-limit error
    among them, is turned into a null reply and never reaches the caller.
    The conversation driver and the tool-calling driver at its first
    request leave the conversation with the user turn added; the
    tool-calling driver at its second request leaves it with the user turn,
    the assistant turn holding the requests and their tool turns added; the
    evaluator has no conversation. *)
Theorem api_errors_become_null_replies (e : exn) :
  isinstance e APIError = true →
  (∀ client h q model msgs,
     chat_history.filter_messages_for_api (h ++ [user_turn q]) = Return msgs →
     chat_completions_create client 0 (chat_history.completion_request msgs model) = Raise e →
     null_reply_with_user_turn h q
       (chat_history.chat_with_history (Some client) h q model))
  ∧ (∀ available client h q model msgs,
     function_calling.filter_messages_for_api (h ++ [user_turn q]) = Return msgs →
     chat_completions_create client 0 (function_calling.first_request msgs model) = Raise e →
     null_reply_with_user_turn h q
       (function_calling.run_conversation_with_tools available (Some client) h q model))
  ∧ (∀ available client h q model msgs ch,
     function_calling.filter_messages_for_api (h ++ [user_turn q]) = Return msgs →
     chat_completions_create client 0 (function_calling.first_request msgs model)
       ≫= first_choice = Return ch →
     function_calling.requested (message ch) ≠ [] →
     (∀ req, chat_completions_create client 1 req = Raise e) →
     let r := function_calling.run_conversation_with_tools available (Some client)
                h q model in
     let requests := function_calling.requested (message ch) in
     r.1 = Return None
     ∧ ∃ turns,
         Forall2 (answers available) requests turns
         ∧ conversation_history r.2
           = h ++ [user_turn q; function_calling.tool_request_turn (message ch) requests]
               ++ turns)
  ∧ (∀ json_loads client q a model,
     chat_completions_create client 0 (evaluation.evaluation_request q a model) = Raise e →
     evaluation.evaluate_response json_loads (Some client) q a model
     = (Return None,
        {| conversation_history := [];
           calls := [evaluation.evaluation_request q a model]; ticks := 0 |})).
Proof.
  intros He. repeat apply conj.
  - intros client h q model msgs Hmsgs Hcall.
    rewrite chat_with_history_run, Hmsgs. cbv zeta. rewrite Hcall.
    cbn [mbind result_bind]. unfold chat_history.globals.
    rewrite (after_handlers_APIError _ He). by split.
  - intros available client h q model msgs Hmsgs Hcall.
    assert (chat_completions_create client 0 (function_calling.first_request msgs model)
              ≫= first_choice = Raise e) as Hfirst by (by rewrite Hcall).
    rewrite (run_tools_first_fails _ _ _ _ _ _ _ Hmsgs Hfirst).
    unfold function_calling.globals. rewrite (after_handlers_APIError _ He). by split.
  - intros available client h q model msgs ch Hmsgs Hcall Hsome Hsecond.
    destruct (run_tools_requests available client h q model msgs ch Hmsgs Hcall Hsome)
      as (turns & k & msgs2 & Hall & _ & Hrun).
    cbv zeta in Hall, Hrun |- *. rewrite Hrun, Hsecond. cbn [mbind result_bind fst snd].
    unfold function_calling.globals. rewrite (after_handlers_APIError _ He).
    split; [reflexivity |]. by exists turns.
  - intros json_loads client q a model Hcall.
    exact (evaluate_response_api_error json_loads client q a model e Hcall He).
Qed.

Lemma api_errors_become_null_replies_witness :
  let e := Exn RateLimitError "429" in
  let h := [samples.system_prompt] in
  null_reply_with_user_turn h "hi"
    (chat_history.chat_with_history (Some (samples.failing e)) h "hi" DEFAULT_MODEL)
  ∧ null_reply_with_user_turn h "hi"
      (function_calling.run_conversation_with_tools
         (function_calling.AVAILABLE_FUNCTIONS samples.noon)
         (Some (samples.failing e)) h "hi" DEFAULT_MODEL)
  ∧ evaluation.evaluate_response samples.toy_json_loads (Some (samples.failing e))
      "hi" "hello" evaluation.EVALUATION_MODEL
    = (Return None,
       {| conversation_history := [];
          calls := [evaluation.evaluation_request "hi" "hello" evaluation.EVALUATION_MODEL];
          ticks := 0 |}).
Proof.
  destruct (api_errors_become_null_replies (Exn RateLimitError "429") eq_refl)
    as (Hchat & Hfirst & _ & Heval).
  split; [| split].
  - apply (Hchat (samples.failing (Exn RateLimitError "429")) [samples.system_prompt] "hi"
             DEFAULT_MODEL [samples.system_prompt; user_turn "hi"]).
    + vm_compute. reflexivity.
    + reflexivity.
  - apply (Hfirst (function_calling.AVAILABLE_FUNCTIONS samples.noon)
             (samples.failing (Exn RateLimitError "429")) [samples.system_prompt] "hi"
             DEFAULT_MODEL [samples.system_prompt; user_turn "hi"]).
    + vm_compute. reflexivity.
    + reflexivity.
  - apply (Heval samples.toy_json_loads (samples.failing (Exn RateLimitError "429"))).
    reflexivity.
Defined.

(** ** Searching and slicing strings *)

Lemma get_Some_lt s : ∀ i c, String.get i s = Some c → i < String.length s.
Proof.
  induction s as [|a s IH]; intros [|i] c H; cbn in *; try discriminate; [lia |].
  apply IH in H. lia.
Qed.


Lemma find_from_first c s : ∀ i i0,
  first_index c s i → find_from c s i0 = (i0 + Z.of_nat i)%Z.
Proof.
  induction s as [|a s IH]; intros i i0 [Hat Hbefore].
  - by destruct i.
  - cbn [find_from]. destruct (Ascii.eqb a c) eqn:Hac.
    + apply Ascii.eqb_eq in Hac as ->. destruct i as [|i]; [lia |].
      destruct (Hbefore 0); [lia | reflexivity].
    + destruct i as [|i].
      * cbn in Hat. injection Hat as ->. by rewrite Ascii.eqb_refl in Hac.
      * rewrite (IH i); [lia |]. split; [exact Hat |].
        intros k Hk. apply (Hbefore (S k)). lia.
Qed.

Lemma rfind_from_none c s : ∀ i0,
  (∀ k, String.get k s ≠ Some c) → rfind_from c s i0 = (-1)%Z.
Proof.
  induction s as [|a s IH]; intros i0 Hno; [reflexivity |].
  cbn [rfind_from]. rewrite IH by (intros k; apply (Hno (S k))). cbn.
  destruct (Ascii.eqb a c) eqn:Hac; [| reflexivity].
  apply Ascii.eqb_eq in Hac as ->. by destruct (Hno 0).
Qed.

Lemma rfind_from_last c s : ∀ j i0,
  (0 ≤ i0)%Z → last_index c s j → rfind_from c s i0 = (i0 + Z.of_nat j)%Z.
Proof.
  induction s as [|a s IH]; intros j i0 Hi0 [Hat Hafter].
  - by destruct j.
  - cbn [rfind_from]. destruct j as [|j].
    + rewrite rfind_from_none by (intros k; apply (Hafter (S k)); lia). cbn.
      cbn in Hat. injection Hat as ->. rewrite Ascii.eqb_refl. lia.
    + rewrite (IH j (i0 + 1)%Z); [| lia |].
      * destruct (Z.eqb_spec (i0 + 1 + Z.of_nat j) (-1)); lia.
      * split; [exact Hat |]. intros k Hk. apply (Hafter (S k)). lia.
Qed.

(** Between two indices of the string, the slice is the substring. *)
Lemma slice_substring s (i j : nat) :
  (i ≤ j)%nat → (j ≤ String.length s)%nat →
  slice s (Z.of_nat i) (Z.of_nat j) = String.substring i (j - i) s.
Proof.
  intros Hij Hj. unfold slice.
  destruct (Z.ltb_spec (Z.of_nat i) 0); [lia |].
  destruct (Z.ltb_spec (Z.of_nat j) 0); [lia |].
  rewrite !Z.min_l by lia. f_equal; lia.
Qed.

(** ** C7: reading the judge's answer *)

Lemma parse_evaluation_block json_loads text i j :
  first_index "{" text i → last_index "}" text j → i < j →
  evaluation.parse_evaluation json_loads (Some text)
  = match json_loads (String.substring i (j - i + 1) text) with
    | Return parsed_evaluation => Return parsed_evaluation
    | Raise e =>
        if isinstance e JSONDecodeError
        then Return (VDict {[ "error" := VStr "Failed to parse JSON";
                              "raw_response" := VStr text ]})
        else Raise e
    end.
Proof.
  intros Hi Hj Hij. unfold evaluation.parse_evaluation, find, rfind.
  rewrite (find_from_first _ _ _ 0%Z Hi), (rfind_from_last _ _ _ 0%Z (Z.le_refl 0) Hj).
  cbv zeta.
  destruct (Z.eqb_spec (0 + Z.of_nat i) (-1)); [lia |].
  destruct (Z.eqb_spec (0 + Z.of_nat j + 1) 0); [lia |].
  rewrite Z.gtb_ltb. destruct (Z.ltb_spec (0 + Z.of_nat i) (0 + Z.of_nat j + 1)); [| lia].
  cbn [negb andb].
  replace (0 + Z.of_nat i)%Z with (Z.of_nat i) by lia.
  replace (0 + Z.of_nat j + 1)%Z with (Z.of_nat (j + 1)) by lia.
  pose proof (get_Some_lt _ _ _ (proj1 Hj)).
  rewrite slice_substring by lia.
  replace (j + 1 - i) with (j - i + 1) by lia.
  by destruct (json_loads _).
Qed.







(** * Further properties of the scripts *)

(** ** groq.py: the client factory *)

(** [get_groq_client] never raises, whatever the SDK constructor does, and
    it returns a client exactly when the variable holds a key that is not
    empty and the constructor returns that client. *)
Theorem get_groq_client_outcomes (environ : gmap string string)
    (Groq_init : string → result Groq) :
  (∃ r, groq.get_groq_client environ Groq_init = Return r)
  ∧ ∀ client,
      groq.get_groq_client environ Groq_init = Return (Some client)
      ↔ ∃ api_key, environ !! "GROQ_API_KEY" = Some api_key
                   ∧ api_key ≠ "" ∧ Groq_init api_key = Return client.
Proof.
  unfold groq.get_groq_client.
  destruct (environ !! "GROQ_API_KEY") as [[|a key]|] eqn:Hkey.
  - split; [eauto |]. intros client. split; [discriminate |].
    by intros (k & [= <-] & Hne & _).
  - destruct (Groq_init (String a key)) as [c|e] eqn:Hinit; cbn [mbind result_bind].
    + split; [eauto |]. intros client. split.
      * intros [= <-]. eauto.
      * intros (k & [= <-] & _ & Hk). congruence.
    + rewrite isinstance_Exception. split; [eauto |]. intros client. split; [discriminate |].
      intros (k & [= <-] & _ & Hk). congruence.
  - split; [eauto |]. intros client. split; [discriminate |].
    by intros (k & [=] & _).
Qed.

(** ** llm.py: one question, one request *)

(** [ask_llm_basic] with a client sends exactly one request, holding the
    system prompt and the question.  It returns the content of the first
    choice when the request is answered, and null when the request raises
    an [APIError]; any other exception of the request, and a completion
    without choices, end in a [NameError] raised to the caller, because
    the second [except] clause names a class the module never imported. *)
Theorem ask_llm_basic_outcomes client user_query model :
  let req := {| req_messages :=
                  [ {[ "role" := VStr "system";
                       "content" := VStr llm.CODING_ASSISTANT_SYSTEM_PROMPT ]};
                    user_turn user_query ];
                req_model := model; req_tools := None; req_tool_choice := None;
                req_temperature := 7 # 10; req_max_tokens := 1024;
                req_top_p := Some 1%Z; req_stream := Some false |} in
  let r := llm.ask_llm_basic (Some client) user_query model in
  calls r.2 = [req]
  ∧ conversation_history r.2 = []
  ∧ r.1 = match chat_completions_create client 0 req ≫= first_choice with
          | Return choice => Return (content (message choice))
          | Raise e =>
              if isinstance e APIError then Return None
              else Raise (Exn NameError "name 'RateLimitError' is not defined")
          end.
Proof.
  cbv zeta. unfold llm.ask_llm_basic. run_driver. fold (user_turn user_query).
  match goal with |- context [chat_completions_create client 0 ?r] => set (req := r) end.
  assert (∀ e, (except_clauses llm.globals ["APIError"; "RateLimitError"; "Exception"] e
                ;; Return None)
               = if isinstance e APIError then Return (@None string)
                 else Raise (Exn NameError "name 'RateLimitError' is not defined")) as Hslip.
  { intros e. destruct (isinstance e APIError) eqn:He.
    - apply (after_handlers_APIError e He).
    - apply (after_handlers_other e He). }
  destruct (chat_completions_create client 0 req) as [c|e]; cbn [mbind result_bind].
  - destruct (first_choice c) as [ch|e]; cbn [mbind result_bind fst snd calls
                                                conversation_history].
    + done.
    + rewrite <- Hslip. by destruct (except_clauses _ _ e).
  - rewrite <- Hslip. by destruct (except_clauses _ _ e).
Qed.

(** ** The [except] clauses, for any driver *)

(** With only [APIError] imported, the three clauses return for an
    [APIError] and raise [NameError] for anything else. *)
Lemma handlers_slip {A} (e : exn) :
  (except_clauses {[ "APIError" := APIError ]} ["APIError"; "RateLimitError"; "Exception"] e
   ;; Return (@None A))
  = if isinstance e APIError then Return None
    else Raise (Exn NameError "name 'RateLimitError' is not defined").
Proof.
  cbn [except_clauses].
  change (load_name {[ "APIError" := APIError ]} "APIError") with (Return APIError).
  cbn [mbind result_bind]. destruct (isinstance e APIError); [reflexivity |].
  change (load_name {[ "APIError" := APIError ]} "RateLimitError")
    with (@Raise exn_class (Exn NameError "name 'RateLimitError' is not defined")).
  reflexivity.
Qed.

Lemma evaluate_response_run json_loads client q a model :
  evaluation.evaluate_response json_loads (Some client) q a model
  = (match chat_completions_create client 0 (evaluation.evaluation_request q a model)
             ≫= first_choice with
     | Return choice =>
         match evaluation.parse_evaluation json_loads (content (message choice)) with
         | Return parsed => Return (Some parsed)
         | Raise e =>
             if isinstance e APIError then Return None
             else Raise (Exn NameError "name 'RateLimitError' is not defined")
         end
     | Raise e =>
         if isinstance e APIError then Return None
         else Raise (Exn NameError "name 'RateLimitError' is not defined")
     end,
     {| conversation_history := [];
        calls := [evaluation.evaluation_request q a model]; ticks := 0 |}).
Proof.
  unfold evaluation.evaluate_response, evaluation.globals. run_driver.
  destruct (chat_completions_create client 0 _) as [c|e]; cbn [mbind result_bind].
  - destruct (first_choice c) as [ch|e]; cbn [mbind result_bind].
    + destruct (evaluation.parse_evaluation json_loads _) as [v|e]; [reflexivity |].
      rewrite <- (handlers_slip e). by destruct (except_clauses _ _ e).
    + rewrite <- (handlers_slip e). by destruct (except_clauses _ _ e).
  - rewrite <- (handlers_slip e). by destruct (except_clauses _ _ e).
Qed.

(** ** Exceptions the drivers do not handle *)

(** An exception raised inside the [try] block of a driver by the request
    or by reading the first choice of an empty completion, when it is not
    an [APIError], is not turned into a null reply: the conversation
    driver, the tool-calling driver and the evaluator raise [NameError] to
    their caller, once the one request is sent and, for the first two,
    the user turn is appended. *)
Theorem other_exceptions_surface_as_NameError (e : exn) :
  isinstance e APIError = false →
  let slip := Exn NameError "name 'RateLimitError' is not defined" in
  (∀ client h q model msgs,
     chat_history.filter_messages_for_api (h ++ [user_turn q]) = Return msgs →
     chat_completions_create client 0 (chat_history.completion_request msgs model)
       ≫= first_choice = Raise e →
     chat_history.chat_with_history (Some client) h q model
     = (Raise slip,
        {| conversation_history := h ++ [user_turn q];
           calls := [chat_history.completion_request msgs model]; ticks := 0 |}))
  ∧ (∀ available client h q model msgs,
     function_calling.filter_messages_for_api (h ++ [user_turn q]) = Return msgs →
     chat_completions_create client 0 (function_calling.first_request msgs model)
       ≫= first_choice = Raise e →
     function_calling.run_conversation_with_tools available (Some client) h q model
     = (Raise slip,
        {| conversation_history := h ++ [user_turn q];
           calls := [function_calling.first_request msgs model]; ticks := 0 |}))
  ∧ (∀ json_loads client q a model,
     chat_completions_create client 0 (evaluation.evaluation_request q a model)
       ≫= first_choice = Raise e →
     evaluation.evaluate_response json_loads (Some client) q a model
     = (Raise slip,
        {| conversation_history := [];
           calls := [evaluation.evaluation_request q a model]; ticks := 0 |})).
Proof.
  intros He slip. split; [| split].
  - intros client h q model msgs Hmsgs Hcall.
    rewrite chat_with_history_run, Hmsgs. cbv zeta. rewrite Hcall.
    unfold chat_history.globals. by rewrite (after_handlers_other e He).
  - intros available client h q model msgs Hmsgs Hcall.
    rewrite (run_tools_first_fails _ _ _ _ _ _ _ Hmsgs Hcall).
    unfold function_calling.globals. by rewrite (after_handlers_other e He).
  - intros json_loads client q a model Hcall.
    by rewrite evaluate_response_run, Hcall, He.
Qed.

Lemma other_exceptions_surface_as_NameError_witness :
  let silent := {| chat_completions_create := λ _ _, Return {| choices := [] |} |} in
  let slip := Exn NameError "name 'RateLimitError' is not defined" in
  chat_history.chat_with_history (Some silent) [samples.system_prompt] "hi" DEFAULT_MODEL
  = (Raise slip,
     {| conversation_history := [samples.system_prompt] ++ [user_turn "hi"];
        calls := [chat_history.completion_request [samples.system_prompt; user_turn "hi"]
                    DEFAULT_MODEL];
        ticks := 0 |})
  ∧ evaluation.evaluate_response samples.toy_json_loads (Some silent) "hi" "hello"
      evaluation.EVALUATION_MODEL
    = (Raise slip,
       {| conversation_history := [];
          calls := [evaluation.evaluation_request "hi" "hello" evaluation.EVALUATION_MODEL];
          ticks := 0 |}).
Proof.
  destruct (other_exceptions_surface_as_NameError
              (Exn IndexError "list index out of range") eq_refl) as (Hchat & _ & Heval).
  split.
  - apply (Hchat {| chat_completions_create := λ _ _, Return {| choices := [] |} |}
             [samples.system_prompt] "hi" DEFAULT_MODEL
             [samples.system_prompt; user_turn "hi"]).
    + vm_compute. reflexivity.
    + reflexivity.
  - apply (Heval samples.toy_json_loads
             {| chat_completions_create := λ _ _, Return {| choices := [] |} |}).
    reflexivity.
Defined.

(** ** evaluation.py: a completion without text *)

(** When the judge's message has a null content, [.find] fails inside the
    inner [try], whose only clause handles [JSONDecodeError]; the outer
    clauses then raise [NameError]: the evaluator does not return. *)
Theorem evaluate_response_null_content json_loads client q a model choice :
  chat_completions_create client 0 (evaluation.evaluation_request q a model)
    ≫= first_choice = Return choice →
  content (message choice) = None →
  evaluation.evaluate_response json_loads (Some client) q a model
  = (Raise (Exn NameError "name 'RateLimitError' is not defined"),
     {| conversation_history := [];
        calls := [evaluation.evaluation_request q a model]; ticks := 0 |}).
Proof.
  intros Hcall Hnull. by rewrite evaluate_response_run, Hcall, Hnull.
Qed.

Lemma evaluate_response_null_content_witness :
  evaluation.evaluate_response samples.toy_json_loads (Some (samples.answering None))
    "hi" "hello" evaluation.EVALUATION_MODEL
  = (Raise (Exn NameError "name 'RateLimitError' is not defined"),
     {| conversation_history := [];
        calls := [evaluation.evaluation_request "hi" "hello" evaluation.EVALUATION_MODEL];
        ticks := 0 |}).
Proof.
  apply (evaluate_response_null_content samples.toy_json_loads (samples.answering None)
           "hi" "hello" evaluation.EVALUATION_MODEL
           {| message := {| content := None; tool_calls := None |} |});
    reflexivity.
Defined.

(** ** evaluation.py: text around the JSON block *)

Lemma string_length_app (a b : string) :
  String.length (a +:+ b) = String.length a + String.length b.
Proof.
  induction a as [|c a IH]; [done |].
  change (String c a +:+ b) with (String c (a +:+ b)). cbn [String.length Nat.add].
  by rewrite IH.
Qed.

Lemma substring_skip (p s : string) n :
  String.substring (String.length p) n (p +:+ s) = String.substring 0 n s.
Proof.
  induction p as [|c p IH]; [done |].
  change (String c p +:+ s) with (String c (p +:+ s)).
  cbn [String.length String.substring]. exact IH.
Qed.

Lemma substring_prefix (a b : string) :
  String.substring 0 (String.length a) (a +:+ b) = a.
Proof.
  induction a as [|c a IH]; [by destruct b |].
  change (String c a +:+ b) with (String c (a +:+ b)).
  cbn [String.length String.substring]. by rewrite IH.
Qed.

Lemma get_app_l (a b : string) k :
  k < String.length a → String.get k (a +:+ b) = String.get k a.
Proof. intros Hk. symmetry. by apply String.append_correct1. Qed.

Lemma get_app_r (a b : string) k :
  String.get (String.length a + k) (a +:+ b) = String.get k b.
Proof. rewrite Nat.add_comm. symmetry. apply String.append_correct2. Qed.

(** The judge may write around its JSON object: when the text is a
    prefix without opening brace, then a block in braces, then a suffix
    without closing brace, the evaluator decodes the block alone; it
    returns the decoded value, or, when the decoder raises
    [JSONDecodeError], the record with the error message and the whole
    text as raw_response; another exception of the decoder is raised. *)
Theorem evaluation_ignores_surrounding_text json_loads (prefix body suffix : string) :
  (∀ k, String.get k prefix ≠ Some "{"%char) →
  (∀ k, String.get k suffix ≠ Some "}"%char) →
  let block := "{" +:+ body +:+ "}" in
  let text := prefix +:+ block +:+ suffix in
  evaluation.parse_evaluation json_loads (Some text)
  = match json_loads block with
    | Return parsed_evaluation => Return parsed_evaluation
    | Raise e =>
        if isinstance e JSONDecodeError
        then Return (VDict {[ "error" := VStr "Failed to parse JSON";
                              "raw_response" := VStr text ]})
        else Raise e
    end.
Proof.
  intros Hprefix Hsuffix block text.
  assert (String.length block = String.length body + 2) as Hblock.
  { unfold block. change ("{" +:+ body +:+ "}") with (String "{" (body +:+ "}")).
    cbn [String.length]. rewrite string_length_app. cbn [String.length]. lia. }
  set (i := String.length prefix).
  set (j := String.length prefix + String.length body + 1).
  assert (first_index "{" text i) as Hi.
  { split.
    - unfold text, i. rewrite <- (Nat.add_0_r (String.length prefix)), get_app_r.
      reflexivity.
    - intros k Hk. unfold text. rewrite get_app_l by exact Hk. apply Hprefix. }
  assert (last_index "}" text j) as Hj.
  { split.
    - unfold text, j. rewrite <- Nat.add_assoc, get_app_r.
      rewrite get_app_l by lia. unfold block.
      change ("{" +:+ body +:+ "}") with (String "{" (body +:+ "}")).
      replace (String.length body + 1) with (S (String.length body)) by lia.
      cbn [String.get]. rewrite <- (Nat.add_0_r (String.length body)), get_app_r.
      reflexivity.
    - intros k Hk. unfold text.
      replace k with (String.length prefix
                      + (String.length block + (k - String.length prefix
                                                - String.length block))) by lia.
      rewrite !get_app_r. apply Hsuffix. }
  rewrite (parse_evaluation_block json_loads text i j Hi Hj) by lia.
  replace (j - i + 1) with (String.length block) by lia.
  unfold text at 1, i. rewrite substring_skip, substring_prefix. reflexivity.
Qed.

Lemma evaluation_ignores_surrounding_text_witness :
  evaluation.parse_evaluation samples.toy_json_loads (Some "Here you go: {} Anything else?")
  = Return (VDict ∅).
Proof.
  apply (evaluation_ignores_surrounding_text samples.toy_json_loads
           "Here you go: " "" " Anything else?").
  - intros k. do 13 (destruct k as [|k]; [discriminate |]). discriminate.
  - intros k. do 15 (destruct k as [|k]; [discriminate |]). discriminate.
Defined.

(** ** What the normalizers let through *)

Lemma lookup_foldr_delete (d : msg) ks k : k ∉ ks → foldr delete d ks !! k = d !! k.
Proof.
  induction ks as [|k' ks IH]; [done |]. intros Hk.
  apply not_elem_of_cons in Hk as [Hne Hk]. cbn [foldr].
  rewrite lookup_delete_ne by done. by apply IH.
Qed.

(** A dictionary that is empty once the keys [ks] are deleted has no
    other key. *)
Lemma keys_within_delete (d : msg) ks : foldr delete d ks = ∅ → keys_within ks d.
Proof.
  intros Hempty k Hk. destruct (decide (k ∈ ks)) as [|Hout]; [done |].
  rewrite <- (lookup_foldr_delete d ks k Hout), Hempty, lookup_empty in Hk.
  by destruct Hk.
Qed.

Lemma chat_history_wire_turn m out :
  chat_history.api_msg_of m = Return out →
  keys_within ["role"; "content"; "tool_calls"; "tool_call_id"] out
  ∧ out !! "role" = m !! "role"
  ∧ is_Some (out !! "content").
Proof.
  unfold chat_history.api_msg_of. read_turn m; split_tests.
  all: intros [= <-].
  all: split; [apply keys_within_delete; vm_compute; reflexivity |].
  all: split_tests; split; [reflexivity | eauto].
Qed.

Lemma function_calling_wire_turn m out :
  function_calling.api_msg_of m = Return out →
  keys_within ["role"; "content"; "tool_calls"; "tool_call_id"; "name"] out
  ∧ out !! "role" = m !! "role".
Proof.
  unfold function_calling.api_msg_of. read_turn m; split_tests.
  all: intros [= <-].
  all: split; [apply keys_within_delete; vm_compute; reflexivity |].
  all: split_tests; reflexivity.
Qed.

(** chat_history's normalizer, when it returns, gives one wire message
    per turn, in order; each has the role of its turn and a content key,
    and no key besides role, content, tool_calls and tool_call_id: what
    else the caller stored in a turn is not sent. *)
Theorem chat_history_wire_messages ms outs :
  chat_history.filter_messages_for_api ms = Return outs →
  length outs = length ms
  ∧ Forall2 (λ (m out : msg),
       keys_within ["role"; "content"; "tool_calls"; "tool_call_id"] out
       ∧ out !! "role" = m !! "role"
       ∧ is_Some (out !! "content")) ms outs.
Proof.
  intros H. apply for_each_Forall2 in H. split.
  - symmetry. by eapply Forall2_length.
  - eapply Forall2_impl; [exact H |]. intros m out. apply chat_history_wire_turn.
Qed.

Lemma chat_history_wire_messages_witness :
  let noted : msg := {[ "role" := VStr "user"; "content" := VStr "hi";
                        "timestamp" := VInt 1700000000 ]} in
  length [user_turn "hi"] = length [noted]
  ∧ Forall2 (λ (m out : msg),
       keys_within ["role"; "content"; "tool_calls"; "tool_call_id"] out
       ∧ out !! "role" = m !! "role"
       ∧ is_Some (out !! "content")) [noted] [user_turn "hi"].
Proof.
  apply (chat_history_wire_messages
           [ {[ "role" := VStr "user"; "content" := VStr "hi";
                "timestamp" := VInt 1700000000 ]} ] [user_turn "hi"]).
  vm_compute. reflexivity.
Defined.

(** function_calling's normalizer, when it returns, gives one wire
    message per turn, in order; each has the role of its turn and no key
    besides role, content, tool_calls, tool_call_id and name. *)
Theorem function_calling_wire_messages ms outs :
  function_calling.filter_messages_for_api ms = Return outs →
  length outs = length ms
  ∧ Forall2 (λ (m out : msg),
       keys_within ["role"; "content"; "tool_calls"; "tool_call_id"; "name"] out
       ∧ out !! "role" = m !! "role") ms outs.
Proof.
  intros H. apply for_each_Forall2 in H. split.
  - symmetry. by eapply Forall2_length.
  - eapply Forall2_impl; [exact H |]. intros m out. apply function_calling_wire_turn.
Qed.

Lemma function_calling_wire_messages_witness :
  let noted : msg := {[ "role" := VStr "user"; "content" := VStr "hi";
                        "timestamp" := VInt 1700000000 ]} in
  length [user_turn "hi"] = length [noted]
  ∧ Forall2 (λ (m out : msg),
       keys_within ["role"; "content"; "tool_calls"; "tool_call_id"; "name"] out
       ∧ out !! "role" = m !! "role") [noted] [user_turn "hi"].
Proof.
  apply (function_calling_wire_messages
           [ {[ "role" := VStr "user"; "content" := VStr "hi";
                "timestamp" := VInt 1700000000 ]} ] [user_turn "hi"]).
  vm_compute. reflexivity.
Defined.

(** ** When chat_history's normalizer raises *)

Lemma chat_history_turn_readable m :
  match chat_history.api_msg_of m with
  | Return _ => readable m
  | Raise e => exn_type e = KeyError ∧ ¬ readable m
  end.
Proof.
  unfold readable, chat_history.api_msg_of. read_turn m; split_tests.
  all: lazymatch goal with
    | |- _ ∧ ¬ _ =>
        split; [reflexivity | intros [Hrole Hcontent];
          first [ by destruct Hrole as [? [=]]
                | by destruct (Hcontent eq_refl) as [? [=]] ]]
    | |- _ => split; [eauto | intros ?; first [discriminate | eauto]]
    end.
Qed.

(** chat_history's normalizer returns exactly on the sequences whose
    turns all have a role and, when they have a tool_call_id that is not
    null, a content key; on any other sequence it raises [KeyError]. *)
Theorem chat_history_normalizer_accepts ms :
  match chat_history.filter_messages_for_api ms with
  | Return _ => Forall readable ms
  | Raise e => exn_type e = KeyError ∧ ¬ Forall readable ms
  end.
Proof.
  unfold chat_history.filter_messages_for_api.
  induction ms as [|m ms IH]; cbn [for_each mbind result_bind]; [constructor |].
  pose proof (chat_history_turn_readable m) as Hm.
  destruct (chat_history.api_msg_of m) as [out|e]; cbn [mbind result_bind].
  - destruct (for_each chat_history.api_msg_of ms) as [outs|e]; cbn [mbind result_bind].
    + by constructor.
    + destruct IH as [He Hno]. split; [exact He |].
      intros Hall. apply Forall_cons in Hall as [_ Hall]. by apply Hno.
  - destruct Hm as [He Hno]. split; [exact He |].
    intros Hall. apply Forall_cons in Hall as [Hall _]. by apply Hno.
Qed.

(** ** When function_calling's normalizer raises *)

Lemma tool_call_dicts_inv l :
  match for_each function_calling.tool_call_dict l with
  | Return _ => ∃ tcs, l = VObj <$> tcs
  | Raise _ => ¬ ∃ tcs, l = VObj <$> tcs
  end.
Proof.
  induction l as [|v l IH]; cbn [for_each mbind result_bind]; [by exists [] |].
  destruct v as [| | | | | | |tc];
    try (cbn [function_calling.tool_call_dict tool_call_of mbind result_bind];
         intros [[|? ?] [=]]).
  cbn [function_calling.tool_call_dict tool_call_of mbind result_bind].
  destruct (for_each function_calling.tool_call_dict l) as [ds|e];
    cbn [mbind result_bind].
  - destruct IH as [tcs ->]. by exists (tc :: tcs).
  - intros [[|? tcs] [=]]. apply IH. by exists tcs.
Qed.

Lemma function_calling_turn_acceptable m :
  match function_calling.api_msg_of m with
  | Return _ => acceptable m
  | Raise _ => ¬ acceptable m
  end.
Proof.
  unfold acceptable, function_calling.api_msg_of.
  read_turn m; split_tests.
  all: repeat match goal with
         | H : for_each function_calling.tool_call_dict ?l = _ |- _ =>
             let H' := fresh in
             pose proof (tool_call_dicts_inv l) as H'; rewrite H in H'; clear H
         end.
  all: lazymatch goal with
    | |- ¬ _ =>
        intros (Hrole & Hcalls & Htool);
        first [ by destruct Hrole as [? [=]]
              | by destruct (Htool eq_refl) as [[? [=]] _]
              | by destruct (Htool eq_refl) as [_ [? [=]]]
              | by destruct (Hcalls eq_refl) as [? [=]]
              | destruct (Hcalls eq_refl) as [? [= ->]]; by eauto ]
    | |- _ =>
        split; [eauto |]; split;
          [ intros ?; first [discriminate | by eauto
                             | match goal with
                               | H : ∃ tcs, _ = VObj <$> tcs |- _ =>
                                   destruct H as [? ->]; by eauto
                               end
                             | by exists [] ]
          | intros ?; first [discriminate | by eauto] ]
    end.
Qed.

(** function_calling's normalizer returns exactly on the sequences whose
    turns all have a role, tool calls (when they have some) that are SDK
    objects, and, on a tool turn, the keys tool_call_id and name; on any
    other sequence it raises. *)
Theorem function_calling_normalizer_accepts ms :
  match function_calling.filter_messages_for_api ms with
  | Return _ => Forall acceptable ms
  | Raise _ => ¬ Forall acceptable ms
  end.
Proof.
  unfold function_calling.filter_messages_for_api.
  induction ms as [|m ms IH]; cbn [for_each mbind result_bind]; [constructor |].
  pose proof (function_calling_turn_acceptable m) as Hm.
  destruct (function_calling.api_msg_of m) as [out|e]; cbn [mbind result_bind].
  - destruct (for_each function_calling.api_msg_of ms) as [outs|e]; cbn [mbind result_bind].
    + by constructor.
    + intros Hall. apply Forall_cons in Hall as [_ Hall]. by apply IH.
  - intros Hall. apply Forall_cons in Hall as [Hall _]. by apply Hm.
Qed.

(** ** The drivers and the conversation they are given *)

Lemma chat_history_own_turns q reply :
  chat_history.api_msg_of (user_turn q) = Return (user_turn q)
  ∧ chat_history.api_msg_of (assistant_turn reply) = Return (assistant_turn reply).
Proof. split; [| destruct reply]; vm_compute; reflexivity. Qed.

Lemma function_calling_own_turns q reply :
  function_calling.api_msg_of (user_turn q) = Return (user_turn q)
  ∧ ∃ wire, function_calling.api_msg_of (assistant_turn reply) = Return wire.
Proof. split; [| destruct reply; eexists]; vm_compute; reflexivity. Qed.

(** Both drivers only append: whatever the remote end does, and even
    when the driver raises, the conversation it leaves begins with the
    conversation it was given; the conversation driver adds at most two
    turns. *)
Theorem drivers_only_append :
  (∀ client h q model,
     ∃ tail, conversation_history (chat_history.chat_with_history client h q model).2
             = h ++ tail
             ∧ (length tail ≤ 2)%nat)
  ∧ (∀ available client h q model,
     ∃ tail, conversation_history
               (function_calling.run_conversation_with_tools available client h q model).2
             = h ++ tail).
Proof.
  split.
  - intros [client|] h q model; [| exists []; split; [by rewrite app_nil_r | cbn; lia]].
    rewrite chat_with_history_run.
    destruct (chat_history.filter_messages_for_api (h ++ [user_turn q])) as [msgs|e].
    + cbv zeta. destruct (chat_completions_create client 0 _ ≫= first_choice) as [ch|e].
      * exists [user_turn q; assistant_turn (content (message ch))].
        cbn [snd conversation_history length]. split; [by rewrite <- app_assoc | lia].
      * exists [user_turn q]. cbn [snd conversation_history length]. split; [done | lia].
    + exists [user_turn q]. cbn [snd conversation_history length]. split; [done | lia].
  - intros available [client|] h q model; [| exists []; by rewrite app_nil_r].
    destruct (function_calling.filter_messages_for_api (h ++ [user_turn q]))
      as [msgs|e] eqn:Hmsgs.
    2: { rewrite (run_tools_rejected _ _ _ _ _ _ Hmsgs). by exists [user_turn q]. }
    destruct (chat_completions_create client 0 (function_calling.first_request msgs model)
                ≫= first_choice) as [ch|e] eqn:Hcall.
    2: { rewrite (run_tools_first_fails _ _ _ _ _ _ _ Hmsgs Hcall). by exists [user_turn q]. }
    destruct (function_calling.requested (message ch)) as [|tc requests] eqn:Hreq.
    + rewrite (run_tools_direct _ _ _ _ _ _ _ Hmsgs Hcall Hreq). by eexists.
    + assert (function_calling.requested (message ch) ≠ []) as Hsome by congruence.
      destruct (run_tools_requests available client h q model msgs ch Hmsgs Hcall Hsome)
        as (turns & k & msgs2 & _ & _ & ->). cbv zeta.
      destruct (chat_completions_create client 1 _ ≫= first_choice) as [final|e];
        cbn [snd conversation_history].
      * rewrite <- app_assoc. by eexists.
      * by eexists.
Qed.

(** The conversation driver keeps its log readable: when chat_history's
    normalizer accepts the conversation before the call, it accepts the
    conversation after it, whatever the outcome, and sends the turns the
    driver appended as they are, after the same earlier messages. *)
Theorem chat_with_history_keeps_log_readable client h q model msgs :
  chat_history.filter_messages_for_api h = Return msgs →
  let r := chat_history.chat_with_history client h q model in
  ∃ tail, conversation_history r.2 = h ++ tail
          ∧ chat_history.filter_messages_for_api (conversation_history r.2)
            = Return (msgs ++ tail).
Proof.
  intros Hh. cbv zeta.
  assert (∀ tail, Forall (λ t, chat_history.api_msg_of t = Return t) tail →
                  chat_history.filter_messages_for_api (h ++ tail) = Return (msgs ++ tail))
    as Hgrow.
  { intros tail Htail. unfold chat_history.filter_messages_for_api in *.
    rewrite for_each_app, Hh. cbn [mbind result_bind].
    assert (for_each chat_history.api_msg_of tail = Return tail) as ->; [| done].
    apply for_each_Forall2. induction Htail; by constructor. }
  destruct client as [client|].
  { rewrite chat_with_history_run.
    rewrite (Hgrow [user_turn q])
      by (apply Forall_singleton, (proj1 (chat_history_own_turns q None))).
    cbv zeta. destruct (chat_completions_create client 0 _ ≫= first_choice) as [ch|e];
      cbn [snd conversation_history].
    - exists [user_turn q; assistant_turn (content (message ch))].
      rewrite <- app_assoc. split; [done |].
      apply Hgrow. apply Forall_cons. split.
      + apply (proj1 (chat_history_own_turns q None)).
      + apply Forall_singleton, (proj2 (chat_history_own_turns q _)).
    - exists [user_turn q]. split; [done |].
      apply Hgrow, Forall_singleton, (proj1 (chat_history_own_turns q None)). }
  exists []. cbn [snd conversation_history chat_history.chat_with_history exec].
  rewrite !app_nil_r. by split.
Qed.

Lemma chat_with_history_keeps_log_readable_witness :
  let r := chat_history.chat_with_history (Some (samples.answering None))
             [samples.system_prompt] "hi" DEFAULT_MODEL in
  ∃ tail, conversation_history r.2 = [samples.system_prompt] ++ tail
          ∧ chat_history.filter_messages_for_api (conversation_history r.2)
            = Return ([samples.system_prompt] ++ tail).
Proof.
  apply (chat_with_history_keeps_log_readable (Some (samples.answering None))
           [samples.system_prompt] "hi" DEFAULT_MODEL [samples.system_prompt]).
  vm_compute. reflexivity.
Defined.

(** The tool-calling driver keeps its log acceptable: when its normalizer
    accepts the conversation before the call, it accepts the conversation
    after it, whatever the outcome and whatever tools were requested, and
    the earlier messages come out the same. *)
Theorem run_conversation_keeps_log_acceptable available client h q model msgs :
  function_calling.filter_messages_for_api h = Return msgs →
  let r := function_calling.run_conversation_with_tools available client h q model in
  ∃ tail wire,
    conversation_history r.2 = h ++ tail
    ∧ function_calling.filter_messages_for_api (conversation_history r.2)
      = Return (msgs ++ wire).
Proof.
  intros Hh. cbv zeta.
  assert (∀ tail wire, function_calling.filter_messages_for_api tail = Return wire →
            function_calling.filter_messages_for_api (h ++ tail) = Return (msgs ++ wire))
    as Hgrow.
  { intros tail wire Htail. unfold function_calling.filter_messages_for_api in *.
    by rewrite for_each_app, Hh, Htail. }
  assert (∀ l wire, function_calling.filter_messages_for_api l = Return wire →
            ∀ reply, ∃ wire', function_calling.filter_messages_for_api
                                (l ++ [assistant_turn reply]) = Return wire') as Hlast.
  { intros l wire Hl reply. unfold function_calling.filter_messages_for_api in *.
    destruct (function_calling_own_turns "" reply) as [_ [w Hw]].
    rewrite for_each_app, Hl. cbn [for_each mbind result_bind]. rewrite Hw.
    cbn [mbind result_bind]. eauto. }
  destruct client as [client|].
  2: { exists [], []. cbn [snd conversation_history
                           function_calling.run_conversation_with_tools exec].
       rewrite !app_nil_r. by split. }
  assert (function_calling.filter_messages_for_api [user_turn q] = Return [user_turn q])
    as Huser.
  { unfold function_calling.filter_messages_for_api. cbn [for_each].
    rewrite (proj1 (function_calling_own_turns q None)). reflexivity. }
  pose proof (Hgrow _ _ Huser) as Hmsgs.
  destruct (chat_completions_create client 0
              (function_calling.first_request (msgs ++ [user_turn q]) model)
              ≫= first_choice) as [ch|e] eqn:Hcall.
  2: { rewrite (run_tools_first_fails _ _ _ _ _ _ _ Hmsgs Hcall).
       exists [user_turn q], [user_turn q]. by split. }
  destruct (function_calling.requested (message ch)) as [|tc requests] eqn:Hreq.
  - rewrite (run_tools_direct _ _ _ _ _ _ _ Hmsgs Hcall Hreq).
    cbn [snd conversation_history].
    destruct (Hlast _ _ Huser (content (message ch))) as [wire Hwire].
    exists [user_turn q; assistant_turn (content (message ch))], wire. split; [done |].
    by apply Hgrow.
  - assert (function_calling.requested (message ch) ≠ []) as Hsome by congruence.
    destruct (run_tools_requests available client h q model _ ch Hmsgs Hcall Hsome)
      as (turns & k & msgs2 & _ & Hmsgs2 & ->). cbv zeta in Hmsgs2 |- *.
    set (grown := [user_turn q;
                   function_calling.tool_request_turn (message ch)
                     (function_calling.requested (message ch))] ++ turns) in *.
    assert (∃ wire, function_calling.filter_messages_for_api grown = Return wire)
      as [wire Hwire].
    { unfold function_calling.filter_messages_for_api in *.
      rewrite for_each_app, Hh in Hmsgs2. cbn [mbind result_bind] in Hmsgs2.
      destruct (for_each function_calling.api_msg_of grown) as [w|]; [eauto | done]. }
    destruct (chat_completions_create client 1 _ ≫= first_choice) as [final|e];
      cbn [snd conversation_history].
    + destruct (Hlast _ _ Hwire (content (message final))) as [wire' Hwire'].
      exists (grown ++ [assistant_turn (content (message final))]), wire'.
      rewrite <- app_assoc. split; [done |]. by apply Hgrow.
    + exists grown, wire. split; [done |]. by apply Hgrow.
Qed.

Lemma run_conversation_keeps_log_acceptable_witness :
  let r := function_calling.run_conversation_with_tools
             (function_calling.AVAILABLE_FUNCTIONS samples.noon)
             (Some (samples.asking [samples.call_clock; samples.call_unknown]
                      (Raise (Exn APIError "503"))))
             [samples.system_prompt] "time?" DEFAULT_MODEL in
  ∃ tail wire,
    conversation_history r.2 = [samples.system_prompt] ++ tail
    ∧ function_calling.filter_messages_for_api (conversation_history r.2)
      = Return ([samples.system_prompt] ++ wire).
Proof.
  apply (run_conversation_keeps_log_acceptable
           (function_calling.AVAILABLE_FUNCTIONS samples.noon)
           (Some (samples.asking [samples.call_clock; samples.call_unknown]
                    (Raise (Exn APIError "503"))))
           [samples.system_prompt] "time?" DEFAULT_MODEL [samples.system_prompt]).
  vm_compute. reflexivity.
Defined.

(** ** How often the registered functions run *)




(** ** chat_history.py: the chat session *)

Lemma pop_after_user l q : pop_dangling_user (l ++ [user_turn q]) = Return l.
Proof.
  unfold pop_dangling_user. rewrite last_snoc. unfold getitem. split_tests.
  by rewrite removelast_last.
Qed.

Lemma pop_after_assistant l reply :
  pop_dangling_user (l ++ [assistant_turn reply]) = Return (l ++ [assistant_turn reply]).
Proof.
  unfold pop_dangling_user. rewrite last_snoc. unfold getitem. by split_tests.
Qed.

(** The loop body, once the normalizer has accepted the log with the
    new user turn. *)
Lemma chat_session_cons client user_input inputs chat_log sent msgs :
  chat_history.filter_messages_for_api (chat_log ++ [user_turn user_input]) = Return msgs →
  chat_session client (user_input :: inputs) chat_log sent
  = if String.eqb (lower user_input) "quit" then Quit chat_log
    else
      match chat_completions_create client (sent + 0)
              (chat_history.completion_request msgs DEFAULT_MODEL) ≫= first_choice with
      | Return choice =>
          chat_session client inputs
            (chat_log ++ [user_turn user_input; assistant_turn (content (message choice))])
            (sent + 1)
      | Raise e =>
          if isinstance e APIError then chat_session client inputs chat_log (sent + 1)
          else Crashed (Exn NameError "name 'RateLimitError' is not defined")
      end.
Proof.
  intros Hmsgs. cbn [chat_session].
  destruct (String.eqb (lower user_input) "quit"); [done |].
  rewrite chat_with_history_run, Hmsgs. cbv zeta.
  change (chat_completions_create (later client sent) 0)
    with (chat_completions_create client (sent + 0)).
  destruct (chat_completions_create client (sent + 0) _ ≫= first_choice) as [ch|e];
    cbn [fst snd conversation_history calls length].
  - rewrite pop_after_assistant, <- app_assoc. cbn [app].
    by destruct (truthy (content (message ch))).
  - unfold chat_history.globals. destruct (isinstance e APIError) eqn:He.
    + rewrite (after_handlers_APIError e He). cbn [truthy].
      by rewrite pop_after_user.
    + by rewrite (after_handlers_other e He).
Qed.

(** One line of the session that is not quit, on a log the normalizer
    accepts.  When the request is answered the two turns stay in the log,
    also when the reply is null or empty; when the request raises an
    [APIError] the user turn is taken back and the log is the one before
    the line; any other exception ends the session with a [NameError]. *)
Theorem chat_session_step client user_input inputs chat_log sent msgs :
  lower user_input ≠ "quit" →
  chat_history.filter_messages_for_api (chat_log ++ [user_turn user_input]) = Return msgs →
  chat_session client (user_input :: inputs) chat_log sent
  = match chat_completions_create client (sent + 0)
            (chat_history.completion_request msgs DEFAULT_MODEL) ≫= first_choice with
    | Return choice =>
        chat_session client inputs
          (chat_log ++ [user_turn user_input; assistant_turn (content (message choice))])
          (sent + 1)
    | Raise e =>
        if isinstance e APIError then chat_session client inputs chat_log (sent + 1)
        else Crashed (Exn NameError "name 'RateLimitError' is not defined")
    end.
Proof.
  intros Hquit Hmsgs. rewrite (chat_session_cons _ _ _ _ _ _ Hmsgs).
  by destruct (String.eqb_spec (lower user_input) "quit").
Qed.

Lemma chat_session_step_witness :
  chat_session (samples.failing (Exn RateLimitError "429")) ["hi"; "QUIT"]
    [samples.system_prompt] 0
  = if isinstance (Exn RateLimitError "429") APIError
    then chat_session (samples.failing (Exn RateLimitError "429")) ["QUIT"]
           [samples.system_prompt] (0 + 1)
    else Crashed (Exn NameError "name 'RateLimitError' is not defined").
Proof.
  apply (chat_session_step (samples.failing (Exn RateLimitError "429")) "hi" ["QUIT"]
           [samples.system_prompt] 0 [samples.system_prompt; user_turn "hi"]).
  - discriminate.
  - vm_compute. reflexivity.
Defined.

(** A session that ends without an exception leaves the log it started
    with followed by whole exchanges only, a user turn and then its
    assistant turn, for some of the lines typed, in the order typed: a
    line whose request failed leaves nothing behind. *)
Theorem chat_session_log client inputs : ∀ chat_log sent final,
  chat_session client inputs chat_log sent = Quit final
  ∨ chat_session client inputs chat_log sent = EndOfInput final →
  ∃ xs, final = chat_log ++ exchanges xs ∧ xs.*1 `sublist_of` inputs.
Proof.
  induction inputs as [|user_input inputs IH]; intros chat_log sent final.
  { intros [[=] | [= <-]]. exists []. split; [by rewrite app_nil_r | constructor]. }
  destruct (String.eqb_spec (lower user_input) "quit") as [Hquit | Hquit].
  { cbn [chat_session]. rewrite Hquit. cbn [String.eqb Ascii.eqb Bool.eqb].
    intros [[= <-] | [=]]. exists []. split; [by rewrite app_nil_r | apply sublist_nil_l]. }
  destruct (chat_history.filter_messages_for_api (chat_log ++ [user_turn user_input]))
    as [msgs|e] eqn:Hmsgs.
  2: { cbn [chat_session].
       destruct (String.eqb_spec (lower user_input) "quit") as [|_]; [done |].
       rewrite chat_with_history_run, Hmsgs. cbn [fst]. by intros [[=] | [=]]. }
  rewrite (chat_session_cons _ _ _ _ _ _ Hmsgs).
  destruct (String.eqb_spec (lower user_input) "quit") as [|_]; [done |].
  destruct (chat_completions_create client (sent + 0) _ ≫= first_choice) as [ch|e].
  - intros Hend. destruct (IH _ _ _ Hend) as (xs & -> & Hsub).
    exists ((user_input, content (message ch)) :: xs). split.
    + by rewrite <- app_assoc.
    + by apply sublist_skip.
  - destruct (isinstance e APIError); [| by intros [[=] | [=]]].
    intros Hend. destruct (IH _ _ _ Hend) as (xs & -> & Hsub).
    exists xs. split; [done | by apply sublist_cons].
Qed.

Lemma chat_session_log_witness :
  ∃ xs, [samples.system_prompt; user_turn "hi"; assistant_turn (Some "hello")]
        = [samples.system_prompt] ++ exchanges xs
        ∧ xs.*1 `sublist_of` ["hi"; "Quit"; "more"].
Proof.
  apply (chat_session_log (samples.answering (Some "hello")) ["hi"; "Quit"; "more"]
           [samples.system_prompt] 0
           [samples.system_prompt; user_turn "hi"; assistant_turn (Some "hello")]).
  left. vm_compute. reflexivity.
Defined.
